(** * The file-structure tree provider (src/extension.ts, class TreeDataProvider)

    A shallow embedding of the tree provider of the extension: the string
    helpers it calls, the host primitives it consumes (the [fs] and [path]
    modules and the notification window), the [FileItem] rows it builds and
    the provider's methods, followed by the properties of the listing and
    of the component/test/story association. *)

From Stdlib Require Import String Ascii List Bool ZArith Lia.
Import ListNotations.
Open Scope string_scope.

(** ** Strings

    Labels and paths are [string]s, a character standing for a code unit.
    The three string methods the provider calls are [includes], [split]
    (always with the separator ["."]) and [indexOf]; they only compare
    units for equality. *)

Module JsString.

(** [s.includes(sub)]: [sub] occurs somewhere in [s]. *)
Fixpoint includes (s sub : string) : bool :=
  if String.eqb (substring 0 (String.length sub) s) sub then true
  else match s with
       | EmptyString => false
       | String _ rest => includes rest sub
       end.

(** [hay.indexOf(needle)]: the least position at which [needle] occurs in
    [hay], or [-1].  [pos] is the position of the head of [hay] in the
    string the search started from. *)
Fixpoint indexOf_from (hay needle : string) (pos : Z) : Z :=
  if String.eqb (substring 0 (String.length needle) hay) needle then pos
  else match hay with
       | EmptyString => (-1)%Z
       | String _ rest => indexOf_from rest needle (pos + 1)%Z
       end.

Definition indexOf (hay needle : string) : Z := indexOf_from hay needle 0.

(** [s.split(sep)] for a one-character separator: the pieces between the
    occurrences of [sep], of which there is always at least one. *)
Fixpoint split (s : string) (sep : ascii) : list string :=
  match s with
  | EmptyString => [EmptyString]
  | String c rest =>
      if Ascii.eqb c sep then EmptyString :: split rest sep
      else match split rest sep with
           | piece :: pieces => String c piece :: pieces
           | [] => [String c EmptyString]
           end
  end.

(** [`${parts[i]}`]: an index past the end reads [undefined], which a
    template literal prints as the word. *)
Definition template_at (parts : list string) (i : nat) : string :=
  match nth_error parts i with
  | Some piece => piece
  | None => "undefined"
  end.

End JsString.

(** ** The name matcher

    [isTestOrStoryFile] is the method of that name; [isTestFile] is the
    body of the filter callback of [findMatchingFiles], named after the
    constant it returns. *)

Definition isTestOrStoryFile (label : string) : bool :=
  JsString.includes label ".test." || JsString.includes label ".stories.".

Definition isTestFile (componentLabel fileName : string) : bool :=
  let splitPath := JsString.split componentLabel "."%char in
  (JsString.indexOf fileName (JsString.template_at splitPath 0 ++ ".test.") =? 0)%Z
  || (JsString.indexOf fileName (JsString.template_at splitPath 0 ++ ".stories.") =? 0)%Z.

(** The words of the specification: the stem of a name is what precedes its
    first dot (all of it when there is none), and [x] starts with [p] when
    [x] is [p] followed by something. *)

Fixpoint stem (name : string) : string :=
  match name with
  | EmptyString => EmptyString
  | String c rest => if Ascii.eqb c "."%char then EmptyString else String c (stem rest)
  end.

Definition starts_with (x p : string) : Prop := exists rest, x = p ++ rest.

(** ** The host

    The provider reads the disk through four calls of Node's [fs] module,
    builds paths with [path.join] and raises one notice through
    [vscode.window].  The disk calls can throw; [pathExists] is the only
    place of the provider that catches. *)

(** The [code] of the error a disk call throws. *)
Inductive Errno : Type := ENOENT | EACCES | ENOTDIR | ELOOP | EIO.

(** What the provider asks of the result of [fs.lstatSync]. *)
Record Stats : Type := { isDirectory : bool }.

(** The disk, as the behaviour of each of the four calls at each path.
    Nothing relates the four answers to each other, so a disk on which
    they disagree (a file removed between two calls, a directory that may
    be reached but not read) is one of the disks quantified over. *)
Record FileSystem : Type := {
  on_access : string -> option Errno;        (* [None]: the call returns *)
  on_readdir : string -> Errno + list string;
  on_exists : string -> bool;
  on_lstat : string -> Errno + Stats
}.

(** What a call of the provider can observe and change: the disk, the
    notices shown so far (oldest first) and the number of change events
    fired. *)
Record World : Type := {
  files : FileSystem;
  notices : list string;
  treeDataChanges : nat
}.

(** A call either returns a value or throws. *)
Inductive Completion (A : Type) : Type :=
| Normal (value : A)
| Throw (err : Errno).
Arguments Normal {A} value.
Arguments Throw {A} err.

Definition Eff (A : Type) : Type := World -> Completion A * World.

Definition ret {A : Type} (a : A) : Eff A := fun w => (Normal a, w).

Definition bind {A B : Type} (m : Eff A) (k : A -> Eff B) : Eff B :=
  fun w => match m w with
           | (Normal a, w') => k a w'
           | (Throw err, w') => (Throw err, w')
           end.

(** [try { body } catch (err) { handler }]. *)
Definition try_catch {A : Type} (body : Eff A) (handler : Errno -> Eff A) : Eff A :=
  fun w => match body w with
           | (Normal a, w') => (Normal a, w')
           | (Throw err, w') => handler err w'
           end.

Declare Scope eff_scope.
Delimit Scope eff_scope with eff.
Bind Scope eff_scope with Eff.
Notation "x <- m ;; k" := (bind m (fun x => k))
  (at level 61, m at next level, right associativity) : eff_scope.
Notation "m ;; k" := (bind m (fun _ => k))
  (at level 61, right associativity) : eff_scope.
Open Scope eff_scope.

(** [a && b] where both sides are calls: [b] runs only when [a] is true. *)
Definition and_then (a b : Eff bool) : Eff bool :=
  x <- a ;; if x then b else ret false.

(** [xs.map(f)], the callback running on each element in order. *)
Fixpoint array_map {A B : Type} (f : A -> Eff B) (xs : list A) : Eff (list B) :=
  match xs with
  | [] => ret []
  | x :: rest => y <- f x ;; ys <- array_map f rest ;; ret (y :: ys)
  end.

(** [xs.forEach(f)] for a callback that updates one captured variable,
    whose value is threaded through the calls. *)
Fixpoint array_forEach {A S : Type} (f : A -> S -> Eff S) (xs : list A) (s : S) : Eff S :=
  match xs with
  | [] => ret s
  | x :: rest => s' <- f x s ;; array_forEach f rest s'
  end.

(** The value a call returns in a world, and the world it leaves. *)
Definition result_of {A : Type} (m : Eff A) (w : World) : Completion A := fst (m w).
Definition world_after {A : Type} (m : Eff A) (w : World) : World := snd (m w).

Module Fs.

Definition accessSync (p : string) : Eff unit :=
  fun w => match on_access (files w) p with
           | None => (Normal tt, w)
           | Some err => (Throw err, w)
           end.

Definition readdirSync (p : string) : Eff (list string) :=
  fun w => match on_readdir (files w) p with
           | inr names => (Normal names, w)
           | inl err => (Throw err, w)
           end.

Definition existsSync (p : string) : Eff bool :=
  fun w => (Normal (on_exists (files w) p), w).

Definition lstatSync (p : string) : Eff Stats :=
  fun w => match on_lstat (files w) p with
           | inr stats => (Normal stats, w)
           | inl err => (Throw err, w)
           end.

End Fs.

Module Window.

Definition showInformationMessage (message : string) : Eff unit :=
  fun w => (Normal tt,
            {| files := files w;
               notices := (notices w ++ [message])%list;
               treeDataChanges := treeDataChanges w |}).

End Window.

(** [path.join] of two segments; its result depends on the platform, so
    the provider is embedded over any such function. *)
Class PathModule : Type := { join : string -> string -> string }.

Module TreeItemCollapsibleState.
(** [None] is 0, [Collapsed] is 1 and [Expanded] is 2. *)
Inductive t : Type := None | Collapsed | Expanded.

(** The value as the condition of [? :]: only 0 is falsy. *)
Definition truthy (s : t) : bool :=
  match s with
  | None => false
  | Collapsed | Expanded => true
  end.
End TreeItemCollapsibleState.

Module Vscode.
(** A [vscode.Command]; a [vscode.Uri] made by [Uri.file] is held as the
    path its [fsPath] gives back. *)
Record Command : Type := {
  command : string;
  title : string;
  arguments : list string
}.
End Vscode.

(** The icon a row can carry; the only one is the test logo. *)
Inductive IconPath : Type := testIconPath.

(** ** Rows *)

Module FileItem.

Record t : Type := {
  label : string;
  resourceUri : string;
  collapsibleState : TreeItemCollapsibleState.t;
  command : option Vscode.Command;
  isTestOrStoryFile : option bool;
  tooltip : string;
  iconPath : option IconPath
}.

(** The constructor of the class. *)
Definition new (label resourceUri : string)
           (collapsibleState : TreeItemCollapsibleState.t)
           (command : option Vscode.Command)
           (isTestOrStoryFile : option bool) : t :=
  {| label := label;
     resourceUri := resourceUri;
     collapsibleState := collapsibleState;
     command := command;
     isTestOrStoryFile := isTestOrStoryFile;
     tooltip := resourceUri;
     iconPath := match isTestOrStoryFile with
                 | Some true => Some testIconPath
                 | _ => Datatypes.None
                 end |}.

End FileItem.

(** ** The provider *)

Record TreeDataProvider : Type := { workspaceRoot : string }.

Section Provider.

Context {path : PathModule}.
Variable this : TreeDataProvider.

Definition inTestOrStoryDirectory (directoryPath : string) : bool :=
  String.eqb directoryPath (join (workspaceRoot this) "tests")
  || String.eqb directoryPath (join (workspaceRoot this) "stories").

(** The [catch] returns [false] from the method; past the [try] the
    method returns [true]. *)
Definition pathExists (p : string) : Eff bool :=
  returned <- try_catch (Fs.accessSync p ;; ret Datatypes.None)
                        (fun _ => ret (Some false)) ;;
  match returned with
  | Some answer => ret answer
  | Datatypes.None => ret true
  end.

Definition getAllFileNamesInDirectory (directoryPath : string) : Eff (list string) :=
  found <- pathExists directoryPath ;;
  if found then Fs.readdirSync directoryPath else ret [].

Definition createFileItem (element directoryPath : string) (displayTestIcon : bool)
  : Eff FileItem.t :=
  let filePath := join directoryPath element in
  isDir <- and_then (Fs.existsSync filePath)
                    (stats <- Fs.lstatSync filePath ;; ret (isDirectory stats)) ;;
  let isDirectory :=
    if isDir then TreeItemCollapsibleState.Collapsed
    else TreeItemCollapsibleState.None in
  ret (FileItem.new
         element
         filePath
         (if TreeItemCollapsibleState.truthy isDirectory
          then TreeItemCollapsibleState.Collapsed
          else TreeItemCollapsibleState.None)
         (if TreeItemCollapsibleState.truthy isDirectory
          then Datatypes.None
          else Some {| Vscode.command := "vscode.open";
                       Vscode.title := EmptyString;
                       Vscode.arguments := [filePath] |})
         (Some displayTestIcon)).

Definition getAllFilesInDirectory (directoryPath : string) : Eff (list FileItem.t) :=
  allElements <- getAllFileNamesInDirectory directoryPath ;;
  let displayTestIcon := inTestOrStoryDirectory directoryPath in
  array_map (fun element => createFileItem element directoryPath displayTestIcon)
            allElements.

Definition findMatchingFiles (directoryPath componentLabel : string)
  : Eff (list FileItem.t) :=
  names <- getAllFileNamesInDirectory directoryPath ;;
  array_map (fun fileName => createFileItem fileName directoryPath true)
            (filter (fun fileName => isTestFile componentLabel fileName) names).

(** [result] is the array the callback of [forEach] pushes to; the two
    arguments of the second [push] are evaluated left to right. *)
Definition getCombinedComponentsWithTestFiles (directoryPath : string)
  : Eff (list FileItem.t) :=
  allFiles <- getAllFilesInDirectory directoryPath ;;
  array_forEach
    (fun (file : FileItem.t) (result : list FileItem.t) =>
       let fileLabel := FileItem.label file in
       let result := (result ++ [file])%list in
       if negb (isTestOrStoryFile fileLabel) then
         fromTests <- findMatchingFiles (join (workspaceRoot this) "tests") fileLabel ;;
         fromStories <- findMatchingFiles (join (workspaceRoot this) "stories") fileLabel ;;
         ret (result ++ fromTests ++ fromStories)%list
       else ret result)
    allFiles [].

(** The promise the method returns is already resolved with the array,
    which is what the embedding returns; an error thrown while the array
    is computed leaves the method as a throw. *)
Definition getChildren (element : option FileItem.t) : Eff (list FileItem.t) :=
  if String.eqb (workspaceRoot this) EmptyString then
    Window.showInformationMessage "No FileItem in empty workspace" ;;
    ret []
  else
    match element with
    | Some element =>
        let isTestOrStoryDirectory :=
          inTestOrStoryDirectory (FileItem.resourceUri element) in
        if negb isTestOrStoryDirectory then
          getCombinedComponentsWithTestFiles (FileItem.resourceUri element)
        else
          getAllFilesInDirectory (FileItem.resourceUri element)
    | Datatypes.None => getAllFilesInDirectory (workspaceRoot this)
    end.

Definition refresh : Eff unit :=
  fun w => (Normal tt,
            {| files := files w;
               notices := notices w;
               treeDataChanges := S (treeDataChanges w) |}).

End Provider.

(** ** Words used to state the properties *)

(** The kind of a row: a directory is shown collapsed, a file is not
    expandable. *)
Definition is_directory (f : FileItem.t) : bool :=
  match FileItem.collapsibleState f with
  | TreeItemCollapsibleState.Collapsed => true
  | _ => false
  end.

Definition is_auxiliary (f : FileItem.t) : bool :=
  match FileItem.isTestOrStoryFile f with
  | Some true => true
  | _ => false
  end.

(** A disk on which [lstatSync] answers for every path that [existsSync]
    reports. *)
Definition lstat_answers (disk : FileSystem) : Prop :=
  forall p, on_exists disk p = true -> exists stats, on_lstat disk p = inr stats.

Section Rows.

Context {path : PathModule}.

(** The row [createFileItem] returns when it returns. *)
Definition row (disk : FileSystem) (directoryPath : string) (displayTestIcon : bool)
           (element : string) : FileItem.t :=
  let filePath := join directoryPath element in
  let isDir := on_exists disk filePath
               && match on_lstat disk filePath with
                  | inr stats => isDirectory stats
                  | inl _ => false
                  end in
  FileItem.new element filePath
               (if isDir then TreeItemCollapsibleState.Collapsed
                else TreeItemCollapsibleState.None)
               (if isDir then Datatypes.None
                else Some {| Vscode.command := "vscode.open";
                             Vscode.title := EmptyString;
                             Vscode.arguments := [filePath] |})
               (Some displayTestIcon).

(** The rows spliced after an entry named [componentLabel]: the matches
    of the tests directory, then those of the stories directory. *)
Definition matched_rows (this : TreeDataProvider) (disk : FileSystem)
           (testNames storyNames : list string) (componentLabel : string)
  : list FileItem.t :=
  (map (row disk (join (workspaceRoot this) "tests") true)
       (filter (isTestFile componentLabel) testNames)
   ++ map (row disk (join (workspaceRoot this) "stories") true)
          (filter (isTestFile componentLabel) storyNames))%list.

(** An entry followed by what is spliced after it. *)
Definition group (this : TreeDataProvider) (disk : FileSystem)
           (directoryPath : string) (testNames storyNames : list string)
           (element : string) : list FileItem.t :=
  row disk directoryPath (inTestOrStoryDirectory this directoryPath) element
  :: (if isTestOrStoryFile element then []
      else matched_rows this disk testNames storyNames element).

End Rows.

(** A call that leaves the world as it found it, and a call whose
    completion depends on the disk alone. *)
Definition quiet {A : Type} (m : Eff A) : Prop :=
  forall w, world_after m w = w.

Definition disk_only {A : Type} (m : Eff A) : Prop :=
  forall w1 w2, files w1 = files w2 -> result_of m w1 = result_of m w2.

Definition reader {A : Type} (m : Eff A) : Prop := quiet m /\ disk_only m.

(** What [getAllFileNamesInDirectory] completes with on a disk, and the
    names it returns (none when it throws). *)
Definition listing (disk : FileSystem) (directoryPath : string)
  : Completion (list string) :=
  match on_access disk directoryPath with
  | Some _ => Normal []
  | Datatypes.None =>
      match on_readdir disk directoryPath with
      | inr names => Normal names
      | inl err => Throw err
      end
  end.

Definition entries (disk : FileSystem) (directoryPath : string) : list string :=
  match listing disk directoryPath with
  | Normal names => names
  | Throw _ => []
  end.

(** How often a path occurs among rows. *)
Definition occurrences (p : string) (rows : list FileItem.t) : nat :=
  List.length (filter (fun f => String.eqb (FileItem.resourceUri f) p) rows).

(** ** Disks for the examples *)

Inductive Entry : Type := File | Directory (names : list string).

Fixpoint lookup (table : list (string * Entry)) (p : string) : option Entry :=
  match table with
  | [] => Datatypes.None
  | (q, e) :: rest => if String.eqb p q then Some e else lookup rest p
  end.

(** The disk holding exactly the entries of [table], all of them
    accessible. *)
Definition disk_of (table : list (string * Entry)) : FileSystem :=
  {| on_access p := match lookup table p with
                    | Some _ => Datatypes.None
                    | Datatypes.None => Some ENOENT
                    end;
     on_readdir p := match lookup table p with
                     | Some (Directory names) => inr names
                     | Some File => inl ENOTDIR
                     | Datatypes.None => inl ENOENT
                     end;
     on_exists p := match lookup table p with
                    | Some _ => true
                    | Datatypes.None => false
                    end;
     on_lstat p := match lookup table p with
                   | Some File => inr {| isDirectory := false |}
                   | Some (Directory _) => inr {| isDirectory := true |}
                   | Datatypes.None => inl ENOENT
                   end |}.

Definition world_of (table : list (string * Entry)) : World :=
  {| files := disk_of table; notices := []; treeDataChanges := 0 |}.

(** Joining with a slash, as [path.join] does on POSIX for a directory
    path in normal form and a plain name. *)
Definition posix : PathModule := {| join a b := a ++ "/" ++ b |}.

(** The labels of the rows a call returned. *)
Definition labels (c : Completion (list FileItem.t)) : Completion (list string) :=
  match c with
  | Normal rows => Normal (map FileItem.label rows)
  | Throw err => Throw err
  end.

(** A provider rooted at the [web/src] of a workspace folder, as
    [activate] makes it. *)
Definition web_src : TreeDataProvider := {| workspaceRoot := "/app/web/src" |}.

(** No workspace folder is open. *)
Definition no_workspace : TreeDataProvider := {| workspaceRoot := EmptyString |}.

(** Two components, one test, two stories listed out of order. *)
Definition two_components : list (string * Entry) :=
  [ ("/app/web/src", Directory ["ui"; "tests"; "stories"]);
    ("/app/web/src/ui", Directory ["A.tsx"; "B.tsx"]);
    ("/app/web/src/ui/A.tsx", File);
    ("/app/web/src/ui/B.tsx", File);
    ("/app/web/src/tests", Directory ["A.test.tsx"]);
    ("/app/web/src/tests/A.test.tsx", File);
    ("/app/web/src/stories", Directory ["B.stories.tsx"; "A.stories.tsx"]);
    ("/app/web/src/stories/B.stories.tsx", File);
    ("/app/web/src/stories/A.stories.tsx", File) ].

(** A component at the top level of the root, next to its tests. *)
Definition top_level_component : list (string * Entry) :=
  [ ("/app/web/src", Directory ["A.tsx"; "tests"]);
    ("/app/web/src/A.tsx", File);
    ("/app/web/src/tests", Directory ["A.test.tsx"]);
    ("/app/web/src/tests/A.test.tsx", File) ].

(** A component kept as a directory, with a test of the same stem. *)
Definition component_directory : list (string * Entry) :=
  [ ("/app/web/src", Directory ["ui"; "tests"]);
    ("/app/web/src/ui", Directory ["Button"]);
    ("/app/web/src/ui/Button", Directory ["index.tsx"]);
    ("/app/web/src/ui/Button/index.tsx", File);
    ("/app/web/src/tests", Directory ["Button.test.tsx"]);
    ("/app/web/src/tests/Button.test.tsx", File) ].

(** A component and its style sheet, with one test for the stem. *)
Definition component_with_styles : list (string * Entry) :=
  [ ("/app/web/src", Directory ["ui"; "tests"]);
    ("/app/web/src/ui", Directory ["Button.tsx"; "Button.css"]);
    ("/app/web/src/ui/Button.tsx", File);
    ("/app/web/src/ui/Button.css", File);
    ("/app/web/src/tests", Directory ["Button.test.tsx"]);
    ("/app/web/src/tests/Button.test.tsx", File) ].

(** A directory named [tests] below a component directory. *)
Definition nested_tests : list (string * Entry) :=
  [ ("/app/web/src", Directory ["ui"; "tests"]);
    ("/app/web/src/ui", Directory ["tests"]);
    ("/app/web/src/ui/tests", Directory ["Card.tsx"; "Card.test.tsx"]);
    ("/app/web/src/ui/tests/Card.tsx", File);
    ("/app/web/src/ui/tests/Card.test.tsx", File);
    ("/app/web/src/tests", Directory ["Card.test.tsx"]);
    ("/app/web/src/tests/Card.test.tsx", File) ].

(** The row of a directory at [p], as a listing outside the auxiliary
    directories returns it. *)
Definition directory_row (name p : string) : FileItem.t :=
  FileItem.new name p TreeItemCollapsibleState.Collapsed Datatypes.None (Some false).

(** The row of the component directory [ui], and a later world on the
    disk of [two_components]: a notice has been shown and the tree has been
    refreshed three times. *)
Definition ui_row : FileItem.t := directory_row "ui" "/app/web/src/ui".

Definition two_components_later : World :=
  {| files := disk_of two_components;
     notices := ["No FileItem in empty workspace"];
     treeDataChanges := 3 |}.

(** ** The rest of the extension *)

Section ProviderItems.

Variable this : TreeDataProvider.

(** The row is its own tree item. *)
Definition getTreeItem (element : FileItem.t) : FileItem.t := element.

End ProviderItems.

Module Extension.

(** A workspace folder, held as the [fsPath] of its [uri]. *)
Record WorkspaceFolder : Type := { fsPath : string }.

(** What [activate] hands to the host: the provider of each view and the
    handler of each command. *)
Record Registered : Type := {
  treeDataProviders : list (string * TreeDataProvider);
  commands : list (string * Eff unit)
}.

(** [workspaceFolders] is undefined when no workspace is open.  The root
    is made by a template literal, not by [path.join].  The call of
    [console.log] is left out. *)
Definition activate (workspaceFolders : option (list WorkspaceFolder)) : Registered :=
  let rootPath :=
    match workspaceFolders with
    | Some (folder :: _) => fsPath folder ++ "/web/src"
    | Some [] => EmptyString
    | Datatypes.None => EmptyString
    end in
  let treeDataProvider := {| workspaceRoot := rootPath |} in
  {| treeDataProviders := [("fileStructure", treeDataProvider)];
     commands := [("fileStructure.refreshEntry", refresh)] |}.

End Extension.

(** ** More words used to state properties *)

(** [s] holds [sub] somewhere. *)
Definition contains (s sub : string) : Prop :=
  exists pre post, s = pre ++ sub ++ post.

(** The path a query lists: that of the row expanded, or the root. *)
Definition queried_path (this : TreeDataProvider) (element : option FileItem.t) : string :=
  match element with
  | Some row => FileItem.resourceUri row
  | Datatypes.None => workspaceRoot this
  end.

Definition unmarked (f : FileItem.t) : bool := negb (is_auxiliary f).

(** The command that opens [p]. *)
Definition open_command (p : string) : Vscode.Command :=
  {| Vscode.command := "vscode.open"; Vscode.title := EmptyString;
     Vscode.arguments := [p] |}.

(** A row whose fields agree with each other: the tooltip is the path,
    the marker is a boolean and the test logo goes with it, and the row is
    either collapsed with no command or not expandable with the command
    that opens its own path. *)
Definition well_formed (f : FileItem.t) : Prop :=
  FileItem.tooltip f = FileItem.resourceUri f
  /\ (exists flag,
         FileItem.isTestOrStoryFile f = Some flag
         /\ FileItem.iconPath f = if flag then Some testIconPath else Datatypes.None)
  /\ (FileItem.collapsibleState f = TreeItemCollapsibleState.Collapsed
       /\ FileItem.command f = Datatypes.None
       \/ FileItem.collapsibleState f = TreeItemCollapsibleState.None
          /\ FileItem.command f = Some (open_command (FileItem.resourceUri f))).

(** The disk [disk] with [lstatSync] throwing [err] at [p]. *)
Definition with_lstat_failure (disk : FileSystem) (p : string) (err : Errno) : FileSystem :=
  {| on_access := on_access disk;
     on_readdir := on_readdir disk;
     on_exists := on_exists disk;
     on_lstat q := if String.eqb q p then inl err else on_lstat disk q |}.

Definition world_on (disk : FileSystem) : World :=
  {| files := disk; notices := []; treeDataChanges := 0 |}.

(** A component directory next to a file that has taken the place of the
    tests directory. *)
Definition tests_is_a_file : list (string * Entry) :=
  [ ("/app/web/src", Directory ["ui"; "tests"]);
    ("/app/web/src/ui", Directory ["A.test.tsx"; "A.tsx"]);
    ("/app/web/src/ui/A.test.tsx", File);
    ("/app/web/src/ui/A.tsx", File);
    ("/app/web/src/tests", File) ].

(** A component directory in a workspace with no tests and no stories. *)
Definition no_auxiliary_directories : list (string * Entry) :=
  [ ("/app/web/src", Directory ["ui"]);
    ("/app/web/src/ui", Directory ["A.tsx"; "hooks"]);
    ("/app/web/src/ui/A.tsx", File);
    ("/app/web/src/ui/hooks", Directory []) ].

(** A directory holding nothing but a test file, in a workspace whose
    tests directory cannot be listed. *)
Definition only_test_named : list (string * Entry) :=
  [ ("/app/web/src", Directory ["ui"; "tests"]);
    ("/app/web/src/ui", Directory ["A.test.tsx"]);
    ("/app/web/src/ui/A.test.tsx", File);
    ("/app/web/src/tests", File) ].

(** A component and its style sheet at the top level of the root, next
    to the tests directory that holds the test of their stem. *)
Definition styled_component_at_top_level : list (string * Entry) :=
  [ ("/app/web/src", Directory ["Button.tsx"; "Button.css"; "tests"]);
    ("/app/web/src/Button.tsx", File);
    ("/app/web/src/Button.css", File);
    ("/app/web/src/tests", Directory ["Button.test.tsx"]);
    ("/app/web/src/tests/Button.test.tsx", File) ].

(** *** Facts about the string helpers *)

Lemma substring_prefix_iff (p x : string) :
  substring 0 (String.length p) x = p <-> starts_with x p.
Proof.
  split.
  - revert x; induction p as [|c p IH]; intros x H.
    + exists x; reflexivity.
    + destruct x as [|d x]; simpl in H; [discriminate|].
      injection H as -> Hp. destruct (IH _ Hp) as [r ->].
      exists r; reflexivity.
  - intros [r ->]. induction p as [|c p IH]; simpl.
    + destruct r; reflexivity.
    + now rewrite IH.
Qed.

Lemma indexOf_from_range (hay needle : string) (pos : Z) :
  (JsString.indexOf_from hay needle pos = -1
   \/ pos <= JsString.indexOf_from hay needle pos)%Z.
Proof.
  revert pos; induction hay as [|c hay IH]; intros pos; simpl.
  - destruct (String.eqb _ _); [right; lia | left; reflexivity].
  - destruct (String.eqb _ _); [right; lia|].
    destruct (IH (pos + 1)%Z) as [-> | H]; [left; reflexivity | right; lia].
Qed.

Lemma indexOf_zero_iff (hay needle : string) :
  (JsString.indexOf hay needle =? 0)%Z = true <-> starts_with hay needle.
Proof.
  rewrite Z.eqb_eq, <- substring_prefix_iff. unfold JsString.indexOf.
  destruct hay as [|c hay]; cbn [JsString.indexOf_from].
  - destruct (String.eqb_spec (substring 0 (String.length needle) EmptyString) needle)
      as [E|E]; [tauto|].
    split; [lia | contradiction].
  - destruct (String.eqb_spec (substring 0 (String.length needle) (String c hay)) needle)
      as [E|E]; [tauto|].
    split; [intros H | contradiction].
    destruct (indexOf_from_range hay needle (0 + 1)) as [R|R]; lia.
Qed.

Lemma split_head (s : string) :
  exists pieces, JsString.split s "."%char = stem s :: pieces.
Proof.
  induction s as [|c s [pieces IH]]; simpl.
  - now exists [].
  - destruct (Ascii.eqb c "."%char).
    + now eexists.
    + rewrite IH. now eexists.
Qed.

Lemma template_at_split (s : string) :
  JsString.template_at (JsString.split s "."%char) 0 = stem s.
Proof.
  destruct (split_head s) as [pieces ->]. reflexivity.
Qed.

(** C3. The filter of [findMatchingFiles] accepts a candidate name [X] for
    a component name [C] exactly when [X] starts with the stem of [C]
    followed by [.test.] or by [.stories.]; so [ButtonGroup.test.tsx] is
    not a match for [Button.tsx], and [Button.test.tsx] and
    [Button.stories.tsx] are. *)
Theorem isTestFile_iff_stem_prefix :
  (forall C X : string,
      isTestFile C X = true <->
      starts_with X (stem C ++ ".test.") \/ starts_with X (stem C ++ ".stories."))
  /\ isTestFile "Button.tsx" "ButtonGroup.test.tsx" = false
  /\ isTestFile "Button.tsx" "Button.test.tsx" = true
  /\ isTestFile "Button.tsx" "Button.stories.tsx" = true.
Proof.
  split; [|repeat split; reflexivity].
  intros C X. unfold isTestFile.
  rewrite orb_true_iff, !indexOf_zero_iff, template_at_split. reflexivity.
Qed.

(** ** Calls that only read the disk *)

Lemma bind_eq {A B : Type} (m : Eff A) (k : A -> Eff B) (w w' : World) (c : Completion A) :
  m w = (c, w') ->
  bind m k w = match c with
               | Normal a => k a w'
               | Throw err => (Throw err, w')
               end.
Proof. intros E. unfold bind. rewrite E. reflexivity. Qed.

Lemma bind_inv {A B : Type} (m : Eff A) (k : A -> Eff B) (w w' : World) (b : B) :
  bind m k w = (Normal b, w') ->
  exists a w1, m w = (Normal a, w1) /\ k a w1 = (Normal b, w').
Proof.
  unfold bind. destruct (m w) as [[a|err] w1]; [|discriminate].
  intros E. now exists a, w1.
Qed.

Lemma reader_run {A : Type} (m : Eff A) (w : World) :
  quiet m -> m w = (result_of m w, w).
Proof.
  intros Q. specialize (Q w). unfold world_after, result_of in *.
  destruct (m w) as [c w']. simpl in *. now subst.
Qed.

Lemma reader_ret {A : Type} (a : A) : reader (ret a).
Proof. split; intros w; reflexivity. Qed.

Lemma reader_bind {A B : Type} (m : Eff A) (k : A -> Eff B) :
  reader m -> (forall a, reader (k a)) -> reader (bind m k).
Proof.
  intros [Qm Dm] Hk. split.
  - intros w. unfold world_after. rewrite (bind_eq m k w w _ (reader_run m w Qm)).
    destruct (result_of m w) as [a|err]; [apply (Hk a) | reflexivity].
  - intros w1 w2 E. unfold result_of at 1 2.
    rewrite (bind_eq m k w1 w1 _ (reader_run m w1 Qm)).
    rewrite (bind_eq m k w2 w2 _ (reader_run m w2 Qm)).
    rewrite (Dm w1 w2 E).
    destruct (result_of m w2) as [a|err]; [apply (Hk a), E | reflexivity].
Qed.

Lemma reader_try_catch {A : Type} (body : Eff A) (handler : Errno -> Eff A) :
  reader body -> (forall err, reader (handler err)) -> reader (try_catch body handler).
Proof.
  intros [Qm Dm] Hk. split.
  - intros w. unfold world_after, try_catch. rewrite (reader_run body w Qm).
    destruct (result_of body w) as [a|err]; [reflexivity | apply (Hk err)].
  - intros w1 w2 E. unfold result_of at 1 2. unfold try_catch.
    rewrite (reader_run body w1 Qm), (reader_run body w2 Qm), (Dm w1 w2 E).
    destruct (result_of body w2) as [a|err]; [reflexivity | apply (Hk err), E].
Qed.

Lemma reader_if {A : Type} (b : bool) (m1 m2 : Eff A) :
  reader m1 -> reader m2 -> reader (if b then m1 else m2).
Proof. now destruct b. Qed.

Lemma reader_array_map {A B : Type} (f : A -> Eff B) (xs : list A) :
  (forall x, reader (f x)) -> reader (array_map f xs).
Proof.
  intros Hf. induction xs as [|x xs IH]; simpl.
  - apply reader_ret.
  - apply reader_bind; [apply Hf|]. intros y.
    apply reader_bind; [apply IH|]. intros ys. apply reader_ret.
Qed.

Lemma reader_array_forEach {A S : Type} (f : A -> S -> Eff S) (xs : list A) (s : S) :
  (forall x s', reader (f x s')) -> reader (array_forEach f xs s).
Proof.
  intros Hf. revert s. induction xs as [|x xs IH]; intros s; simpl.
  - apply reader_ret.
  - apply reader_bind; [apply Hf | intros s'; apply IH].
Qed.

Lemma reader_accessSync (p : string) : reader (Fs.accessSync p).
Proof.
  split.
  - intros w. unfold world_after, Fs.accessSync. now destruct (on_access _ _).
  - intros w1 w2 E. unfold result_of, Fs.accessSync. rewrite E.
    now destruct (on_access _ _).
Qed.

Lemma reader_readdirSync (p : string) : reader (Fs.readdirSync p).
Proof.
  split.
  - intros w. unfold world_after, Fs.readdirSync. now destruct (on_readdir _ _).
  - intros w1 w2 E. unfold result_of, Fs.readdirSync. rewrite E.
    now destruct (on_readdir _ _).
Qed.

Lemma reader_existsSync (p : string) : reader (Fs.existsSync p).
Proof.
  split.
  - intros w. reflexivity.
  - intros w1 w2 E. unfold result_of, Fs.existsSync. simpl. now rewrite E.
Qed.

Lemma reader_lstatSync (p : string) : reader (Fs.lstatSync p).
Proof.
  split.
  - intros w. unfold world_after, Fs.lstatSync. now destruct (on_lstat _ _).
  - intros w1 w2 E. unfold result_of, Fs.lstatSync. rewrite E.
    now destruct (on_lstat _ _).
Qed.

Create HintDb readers.
#[export] Hint Resolve reader_ret reader_accessSync reader_readdirSync
  reader_existsSync reader_lstatSync : readers.

Ltac reader_step :=
  first [ apply reader_bind; [|intro]
        | apply reader_try_catch; [|intro]
        | apply reader_array_map; intro
        | apply reader_array_forEach; intros
        | apply reader_if
        | solve [auto with readers] ].

Section ProviderReads.

Context {path : PathModule}.
Variable this : TreeDataProvider.

Lemma reader_pathExists (p : string) : reader (pathExists p).
Proof.
  unfold pathExists. repeat reader_step.
  destruct a as [answer|]; auto with readers.
Qed.

Lemma reader_getAllFileNamesInDirectory (d : string) :
  reader (getAllFileNamesInDirectory d).
Proof.
  unfold getAllFileNamesInDirectory.
  apply reader_bind; [apply reader_pathExists | intros found].
  repeat reader_step.
Qed.

Lemma reader_createFileItem (element d : string) (flag : bool) :
  reader (createFileItem element d flag).
Proof. unfold createFileItem, and_then. repeat reader_step. Qed.

Lemma reader_getAllFilesInDirectory (d : string) :
  reader (getAllFilesInDirectory this d).
Proof.
  unfold getAllFilesInDirectory.
  apply reader_bind; [apply reader_getAllFileNamesInDirectory | intros names].
  apply reader_array_map. intros element. apply reader_createFileItem.
Qed.

Lemma reader_findMatchingFiles (d componentLabel : string) :
  reader (findMatchingFiles d componentLabel).
Proof.
  unfold findMatchingFiles.
  apply reader_bind; [apply reader_getAllFileNamesInDirectory | intros names].
  apply reader_array_map. intros element. apply reader_createFileItem.
Qed.

Lemma reader_getCombinedComponentsWithTestFiles (d : string) :
  reader (getCombinedComponentsWithTestFiles this d).
Proof.
  unfold getCombinedComponentsWithTestFiles.
  apply reader_bind; [apply reader_getAllFilesInDirectory | intros allFiles].
  apply reader_array_forEach. intros file result.
  apply reader_if; [|apply reader_ret].
  apply reader_bind; [apply reader_findMatchingFiles | intros fromTests].
  apply reader_bind; [apply reader_findMatchingFiles | intros fromStories].
  apply reader_ret.
Qed.

End ProviderReads.

(** ** What the methods compute *)

Section ProviderRuns.

Context {path : PathModule}.
Variable this : TreeDataProvider.

Lemma pathExists_run (p : string) (w : World) :
  pathExists p w
  = (Normal match on_access (files w) p with
            | Some _ => false
            | Datatypes.None => true
            end, w).
Proof.
  unfold pathExists, try_catch, bind, Fs.accessSync, ret.
  destruct (on_access (files w) p); reflexivity.
Qed.

Lemma getAllFileNamesInDirectory_run (d : string) (w : World) :
  getAllFileNamesInDirectory d w = (listing (files w) d, w).
Proof.
  unfold getAllFileNamesInDirectory.
  rewrite (bind_eq _ _ _ _ _ (pathExists_run d w)).
  unfold listing, Fs.readdirSync, ret.
  destruct (on_access (files w) d); [reflexivity|].
  destruct (on_readdir (files w) d); reflexivity.
Qed.

Lemma createFileItem_run (element d : string) (flag : bool) (w : World) :
  createFileItem element d flag w = (Normal (row (files w) d flag element), w)
  \/ exists err,
      on_exists (files w) (join d element) = true
      /\ on_lstat (files w) (join d element) = inl err
      /\ createFileItem element d flag w = (Throw err, w).
Proof.
  unfold createFileItem, and_then, bind, Fs.existsSync, Fs.lstatSync, ret, row.
  destruct (on_exists (files w) (join d element)) eqn:Ex; cbn [andb].
  - destruct (on_lstat (files w) (join d element)) as [err|stats] eqn:Ls.
    + right. exists err. auto.
    + left. destruct (isDirectory stats); reflexivity.
  - left. reflexivity.
Qed.

Lemma createFileItem_total (element d : string) (flag : bool) (w : World) :
  lstat_answers (files w) ->
  createFileItem element d flag w = (Normal (row (files w) d flag element), w).
Proof.
  intros L. destruct (createFileItem_run element d flag w) as [E | (err & Ex & Ls & _)].
  - exact E.
  - destruct (L _ Ex) as [stats Hs]. congruence.
Qed.

Lemma rows_inv (d : string) (flag : bool) (names : list string) (w w' : World)
      (items : list FileItem.t) :
  array_map (fun element => createFileItem element d flag) names w = (Normal items, w') ->
  items = map (row (files w) d flag) names /\ w' = w.
Proof.
  revert items. induction names as [|n names IH]; intros items; simpl.
  - unfold ret. intros E. injection E as <- <-. auto.
  - destruct (createFileItem_run n d flag w) as [E | (err & _ & _ & E)];
      rewrite (bind_eq _ _ _ _ _ E); [|discriminate].
    destruct (array_map _ names w) as [[rest|err] w1] eqn:R;
      rewrite (bind_eq _ _ _ _ _ R); [|discriminate].
    unfold ret. intros H. injection H as <- <-.
    destruct (IH rest eq_refl) as [-> ->]. auto.
Qed.

Lemma rows_total (d : string) (flag : bool) (names : list string) (w : World) :
  lstat_answers (files w) ->
  array_map (fun element => createFileItem element d flag) names w
  = (Normal (map (row (files w) d flag) names), w).
Proof.
  intros L. induction names as [|n names IH]; simpl; [reflexivity|].
  rewrite (bind_eq _ _ _ _ _ (createFileItem_total n d flag w L)).
  rewrite (bind_eq _ _ _ _ _ IH). reflexivity.
Qed.

Lemma getAllFilesInDirectory_inv (d : string) (w w' : World) (items : list FileItem.t) :
  getAllFilesInDirectory this d w = (Normal items, w') ->
  exists names,
    listing (files w) d = Normal names
    /\ items = map (row (files w) d (inTestOrStoryDirectory this d)) names
    /\ w' = w.
Proof.
  unfold getAllFilesInDirectory.
  rewrite (bind_eq _ _ _ _ _ (getAllFileNamesInDirectory_run d w)).
  destruct (listing (files w) d) as [names|err]; [|discriminate].
  intros R. exists names. split; [reflexivity|]. exact (rows_inv _ _ _ _ _ _ R).
Qed.

Lemma getAllFilesInDirectory_total (d : string) (w : World) (names : list string) :
  lstat_answers (files w) ->
  listing (files w) d = Normal names ->
  getAllFilesInDirectory this d w
  = (Normal (map (row (files w) d (inTestOrStoryDirectory this d)) names), w).
Proof.
  intros L E. unfold getAllFilesInDirectory.
  rewrite (bind_eq _ _ _ _ _ (getAllFileNamesInDirectory_run d w)), E.
  apply rows_total, L.
Qed.

Lemma findMatchingFiles_inv (d componentLabel : string) (w w' : World)
      (items : list FileItem.t) :
  findMatchingFiles d componentLabel w = (Normal items, w') ->
  items = map (row (files w) d true) (filter (isTestFile componentLabel) (entries (files w) d))
  /\ w' = w.
Proof.
  unfold findMatchingFiles, entries.
  rewrite (bind_eq _ _ _ _ _ (getAllFileNamesInDirectory_run d w)).
  destruct (listing (files w) d) as [names|err]; [|discriminate].
  apply rows_inv.
Qed.

Lemma findMatchingFiles_total (d componentLabel : string) (w : World) (names : list string) :
  lstat_answers (files w) ->
  listing (files w) d = Normal names ->
  findMatchingFiles d componentLabel w
  = (Normal (map (row (files w) d true) (filter (isTestFile componentLabel) names)), w).
Proof.
  intros L E. unfold findMatchingFiles.
  rewrite (bind_eq _ _ _ _ _ (getAllFileNamesInDirectory_run d w)), E.
  apply rows_total, L.
Qed.

Lemma entries_listing (disk : FileSystem) (d : string) (names : list string) :
  listing disk d = Normal names -> entries disk d = names.
Proof. unfold entries. now intros ->. Qed.

(** The result of the merge, when it returns, is the listing of the
    directory with each entry followed by its group. *)
Lemma getCombinedComponentsWithTestFiles_inv (d : string) (w w' : World)
      (items : list FileItem.t) :
  getCombinedComponentsWithTestFiles this d w = (Normal items, w') ->
  exists names,
    listing (files w) d = Normal names
    /\ items = flat_map (group this (files w) d
                               (entries (files w) (join (workspaceRoot this) "tests"))
                               (entries (files w) (join (workspaceRoot this) "stories")))
                        names
    /\ w' = w.
Proof.
  unfold getCombinedComponentsWithTestFiles.
  destruct (getAllFilesInDirectory this d w) as [[allFiles|err] w1] eqn:A;
    rewrite (bind_eq _ _ _ _ _ A); [|discriminate].
  destruct (getAllFilesInDirectory_inv _ _ _ _ A) as (names & Hl & -> & ->).
  intros R. exists names. split; [exact Hl|].
  set (flag := inTestOrStoryDirectory this d) in *.
  match type of R with array_forEach ?F _ _ _ = _ => set (callback := F) in * end.
  assert (G : forall names acc,
             array_forEach callback (map (row (files w) d flag) names) acc w
             = (Normal items, w') ->
             items = (acc ++ flat_map (group this (files w) d
                               (entries (files w) (join (workspaceRoot this) "tests"))
                               (entries (files w) (join (workspaceRoot this) "stories")))
                        names)%list /\ w' = w).
  { clear. induction names as [|n names IH]; intros acc; simpl.
    - unfold ret. intros E. injection E as <- <-. now rewrite app_nil_r.
    - intros E. apply bind_inv in E. destruct E as (s' & w1 & B & E).
      unfold callback in B at 1. cbn [FileItem.label row FileItem.new] in B.
      fold flag. destruct (isTestOrStoryFile n); cbn [negb] in B.
      + injection B as <- <-. destruct (IH _ E) as [-> ->].
        split; [|reflexivity]. now rewrite <- app_assoc.
      + apply bind_inv in B. destruct B as (ts & w2 & T & B).
        apply bind_inv in B. destruct B as (ss & w3 & S & B).
        destruct (findMatchingFiles_inv _ _ _ _ _ T) as [-> ->].
        destruct (findMatchingFiles_inv _ _ _ _ _ S) as [-> ->].
        injection B as <- <-. destruct (IH _ E) as [-> ->].
        split; [|reflexivity].
        unfold matched_rows. rewrite <- !app_assoc. reflexivity. }
  exact (G names [] R).
Qed.

(** On a disk where [lstatSync] answers and the three listings return,
    the merge returns. *)
Lemma getCombinedComponentsWithTestFiles_total (d : string) (w : World)
      (names testNames storyNames : list string) :
  lstat_answers (files w) ->
  listing (files w) d = Normal names ->
  listing (files w) (join (workspaceRoot this) "tests") = Normal testNames ->
  listing (files w) (join (workspaceRoot this) "stories") = Normal storyNames ->
  getCombinedComponentsWithTestFiles this d w
  = (Normal (flat_map (group this (files w) d testNames storyNames) names), w).
Proof.
  intros L Hd Ht Hs. unfold getCombinedComponentsWithTestFiles.
  rewrite (bind_eq _ _ _ _ _ (getAllFilesInDirectory_total d w names L Hd)).
  set (flag := inTestOrStoryDirectory this d).
  match goal with |- array_forEach ?F _ _ _ = _ => set (callback := F) end.
  assert (G : forall names acc,
             array_forEach callback (map (row (files w) d flag) names) acc w
             = (Normal (acc ++ flat_map (group this (files w) d testNames storyNames) names)%list,
                w)).
  { clear names Hd. induction names as [|n names IH]; intros acc; simpl.
    - now rewrite app_nil_r.
    - assert (B : callback (row (files w) d flag n) acc w
                  = (Normal (acc ++ group this (files w) d testNames storyNames n)%list, w)).
      { unfold callback, group. cbn [FileItem.label row FileItem.new]. fold flag.
        destruct (isTestOrStoryFile n); cbn [negb]; [reflexivity|].
        rewrite (bind_eq _ _ _ _ _ (findMatchingFiles_total _ n w _ L Ht)).
        rewrite (bind_eq _ _ _ _ _ (findMatchingFiles_total _ n w _ L Hs)).
        unfold matched_rows, ret. now rewrite <- app_assoc. }
      rewrite (bind_eq _ _ _ _ _ B), IH. now rewrite <- app_assoc. }
  exact (G names []).
Qed.

End ProviderRuns.

(** ** Rows and groups *)

Section RowFacts.

Context {path : PathModule}.

Lemma labels_of_rows (disk : FileSystem) (d : string) (flag : bool) (names : list string) :
  map FileItem.label (map (row disk d flag) names) = names.
Proof.
  induction names as [|n names IH]; simpl; [reflexivity|]. now rewrite IH.
Qed.

Lemma rows_marked (disk : FileSystem) (d : string) (flag : bool) (names : list string) :
  Forall (fun f => FileItem.isTestOrStoryFile f = Some flag) (map (row disk d flag) names).
Proof.
  induction names as [|n names IH]; simpl; constructor; [reflexivity | exact IH].
Qed.

Lemma isTestFile_stem (a b x : string) :
  stem a = stem b -> isTestFile a x = isTestFile b x.
Proof.
  intros E. unfold isTestFile. now rewrite !template_at_split, E.
Qed.

Lemma matched_rows_stem (this : TreeDataProvider) (disk : FileSystem)
      (testNames storyNames : list string) (a b : string) :
  stem a = stem b ->
  matched_rows this disk testNames storyNames a
  = matched_rows this disk testNames storyNames b.
Proof.
  intros E. unfold matched_rows.
  now rewrite (filter_ext _ _ (fun x => isTestFile_stem a b x E) testNames),
              (filter_ext _ _ (fun x => isTestFile_stem a b x E) storyNames).
Qed.

Lemma matched_rows_from (this : TreeDataProvider) (disk : FileSystem)
      (testNames storyNames : list string) (componentLabel : string) (f : FileItem.t) :
  In f (matched_rows this disk testNames storyNames componentLabel) ->
  exists x,
    isTestFile componentLabel x = true
    /\ (In x testNames /\ f = row disk (join (workspaceRoot this) "tests") true x
        \/ In x storyNames /\ f = row disk (join (workspaceRoot this) "stories") true x).
Proof.
  unfold matched_rows. rewrite in_app_iff, !in_map_iff.
  intros [(x & <- & Hx) | (x & <- & Hx)]; apply filter_In in Hx; destruct Hx as [Hi Hm];
    exists x; auto.
Qed.

Lemma occurrences_app (p : string) (xs ys : list FileItem.t) :
  occurrences p (xs ++ ys) = occurrences p xs + occurrences p ys.
Proof. unfold occurrences. now rewrite filter_app, length_app. Qed.

Lemma occurrences_cons_le (p : string) (x : FileItem.t) (xs : list FileItem.t) :
  occurrences p xs <= occurrences p (x :: xs).
Proof.
  unfold occurrences. simpl. destruct (String.eqb _ _); simpl; lia.
Qed.

Lemma occurrences_In (f : FileItem.t) (xs : list FileItem.t) :
  In f xs -> 1 <= occurrences (FileItem.resourceUri f) xs.
Proof.
  induction xs as [|x xs IH]; intros H; [contradiction|].
  destruct H as [-> | H].
  - unfold occurrences. simpl. rewrite String.eqb_refl. simpl. lia.
  - pose proof (occurrences_cons_le (FileItem.resourceUri f) x xs).
    specialize (IH H). lia.
Qed.

End RowFacts.

(** ** The queries *)

Section Queries.

Context {path : PathModule}.
Variable this : TreeDataProvider.

Lemma root_set_eqb : workspaceRoot this <> EmptyString -> String.eqb (workspaceRoot this) EmptyString = false.
Proof. intros H. now apply String.eqb_neq. Qed.

Lemma getChildren_keeps_disk (element : option FileItem.t) (w : World) :
  files (world_after (getChildren this element) w) = files w.
Proof.
  unfold getChildren. destruct (String.eqb (workspaceRoot this) EmptyString); [reflexivity|].
  destruct element as [element|].
  - destruct (negb _).
    + now rewrite (proj1 (reader_getCombinedComponentsWithTestFiles this _) w).
    + now rewrite (proj1 (reader_getAllFilesInDirectory this _) w).
  - now rewrite (proj1 (reader_getAllFilesInDirectory this _) w).
Qed.

Lemma getChildren_disk_only (element : option FileItem.t) :
  disk_only (getChildren this element).
Proof.
  unfold getChildren. destruct (String.eqb (workspaceRoot this) EmptyString).
  - intros w1 w2 _. reflexivity.
  - destruct element as [element|].
    + destruct (negb _).
      * apply reader_getCombinedComponentsWithTestFiles.
      * apply reader_getAllFilesInDirectory.
    + apply reader_getAllFilesInDirectory.
Qed.

End Queries.

(** ** The root query *)

(** C1, as the code has it.  When the workspace root is set, the root
    query returns the plain listing of the root: one row per entry, in
    listing order, with the labels of the entries and nothing spliced in. *)
Theorem root_query_lists_the_root {path : PathModule} (this : TreeDataProvider)
        (w : World) :
  workspaceRoot this <> EmptyString ->
  getChildren this Datatypes.None w = getAllFilesInDirectory this (workspaceRoot this) w
  /\ forall items,
      result_of (getChildren this Datatypes.None) w = Normal items ->
      exists names,
        listing (files w) (workspaceRoot this) = Normal names
        /\ items = map (row (files w) (workspaceRoot this)
                            (inTestOrStoryDirectory this (workspaceRoot this))) names
        /\ map FileItem.label items = names.
Proof.
  intros Hroot. unfold getChildren. rewrite (root_set_eqb this Hroot).
  split; [reflexivity|].
  intros items R. unfold result_of in R.
  destruct (getAllFilesInDirectory this (workspaceRoot this) w) as [c w'] eqn:A.
  simpl in R. subst c.
  destruct (getAllFilesInDirectory_inv this _ _ _ _ A) as (names & Hl & -> & _).
  exists names. repeat split; [exact Hl|]. apply labels_of_rows.
Qed.

Lemma root_query_lists_the_root_witness :
  workspaceRoot web_src <> EmptyString
  /\ getChildren (path := posix) web_src Datatypes.None (world_of top_level_component)
     = getAllFilesInDirectory (path := posix) web_src (workspaceRoot web_src)
                              (world_of top_level_component).
Proof.
  split; [discriminate|].
  apply (root_query_lists_the_root (path := posix) web_src (world_of top_level_component)).
  discriminate.
Defined.

(** C1, as stated, fails: with [A.tsx] at the top level of the root and
    [A.test.tsx] in the tests directory, the root query returns the rows
    [A.tsx; tests], whereas the merge of the root has [A.test.tsx] between
    them. *)
Lemma root_query_is_not_the_merge :
  labels (result_of (getChildren (path := posix) web_src Datatypes.None)
                    (world_of top_level_component))
  = Normal ["A.tsx"; "tests"]
  /\ labels (result_of (getCombinedComponentsWithTestFiles (path := posix) web_src
                          (workspaceRoot web_src))
                       (world_of top_level_component))
     = Normal ["A.tsx"; "A.test.tsx"; "tests"]
  /\ result_of (getChildren (path := posix) web_src Datatypes.None)
               (world_of top_level_component)
     <> result_of (getCombinedComponentsWithTestFiles (path := posix) web_src
                     (workspaceRoot web_src))
                  (world_of top_level_component).
Proof.
  split; [vm_compute; reflexivity|].
  split; [vm_compute; reflexivity|].
  intros E. apply (f_equal labels) in E. vm_compute in E. discriminate E.
Qed.

(** C7. With no workspace root, a query returns the empty sequence and
    adds exactly one notice, the advisory one, to those shown; the disk is
    left as it was. *)
Theorem unset_root_notifies_once {path : PathModule} (this : TreeDataProvider)
        (element : option FileItem.t) (w : World) :
  workspaceRoot this = EmptyString ->
  result_of (getChildren this element) w = Normal []
  /\ notices (world_after (getChildren this element) w)
     = (notices w ++ ["No FileItem in empty workspace"])%list
  /\ List.length (notices (world_after (getChildren this element) w))
     = S (List.length (notices w))
  /\ files (world_after (getChildren this element) w) = files w.
Proof.
  intros Hroot. unfold getChildren, result_of, world_after. rewrite Hroot.
  cbn. repeat split. rewrite length_app. simpl. lia.
Qed.

Lemma unset_root_notifies_once_witness :
  workspaceRoot no_workspace = EmptyString
  /\ result_of (getChildren (path := posix) no_workspace Datatypes.None)
               (world_of two_components) = Normal []
  /\ notices (world_after (getChildren (path := posix) no_workspace Datatypes.None)
                          (world_of two_components))
     = ["No FileItem in empty workspace"].
Proof.
  split; [reflexivity|].
  destruct (unset_root_notifies_once (path := posix) no_workspace Datatypes.None
              (world_of two_components) eq_refl) as (R & N & _).
  split; [exact R | exact N].
Defined.

(** C8. On an unchanged disk a query completes the same way whatever else
    the world holds: two worlds with the same disk give the same rows in
    the same order (or the same error), a query leaves the disk as it
    found it, and so asking again gives the same answer. *)
Theorem getChildren_deterministic {path : PathModule} (this : TreeDataProvider)
        (element : option FileItem.t) (w1 w2 : World) :
  files w1 = files w2 ->
  result_of (getChildren this element) w1 = result_of (getChildren this element) w2
  /\ files (world_after (getChildren this element) w1) = files w1
  /\ result_of (getChildren this element) (world_after (getChildren this element) w1)
     = result_of (getChildren this element) w2.
Proof.
  intros E. split; [apply getChildren_disk_only, E|].
  split; [apply getChildren_keeps_disk|].
  apply getChildren_disk_only. now rewrite getChildren_keeps_disk.
Qed.

Lemma getChildren_deterministic_witness :
  files (world_of two_components) = files two_components_later
  /\ result_of (getChildren (path := posix) web_src (Some ui_row)) (world_of two_components)
     = result_of (getChildren (path := posix) web_src (Some ui_row)) two_components_later.
Proof.
  split; [reflexivity|].
  exact (proj1 (getChildren_deterministic (path := posix) web_src (Some ui_row)
                  (world_of two_components) two_components_later eq_refl)).
Defined.

(** ** Listing a directory *)

(** C6. When the existence check of a directory throws, for a missing
    directory or for any other error, [pathExists] returns [false] instead
    of throwing, and both listings of the directory return the empty
    sequence, the world left as it was. *)
Theorem missing_directory_lists_empty {path : PathModule} (this : TreeDataProvider)
        (d : string) (w : World) (err : Errno) :
  on_access (files w) d = Some err ->
  pathExists d w = (Normal false, w)
  /\ getAllFileNamesInDirectory d w = (Normal [], w)
  /\ getAllFilesInDirectory this d w = (Normal [], w).
Proof.
  intros E.
  assert (P : pathExists d w = (Normal false, w)).
  { rewrite pathExists_run, E. reflexivity. }
  assert (N : getAllFileNamesInDirectory d w = (Normal [], w)).
  { rewrite getAllFileNamesInDirectory_run. unfold listing. now rewrite E. }
  repeat split; [exact P | exact N |].
  unfold getAllFilesInDirectory. rewrite (bind_eq _ _ _ _ _ N). reflexivity.
Qed.

Lemma missing_directory_lists_empty_witness :
  on_access (files (world_of two_components)) "/app/web/src/hooks" = Some ENOENT
  /\ getAllFilesInDirectory (path := posix) web_src "/app/web/src/hooks"
                            (world_of two_components)
     = (Normal [], world_of two_components).
Proof.
  split; [reflexivity|].
  apply (missing_directory_lists_empty (path := posix) web_src "/app/web/src/hooks"
           (world_of two_components) ENOENT eq_refl).
Defined.

(** ** Expanding a row *)

(** C5. With the workspace root set, expanding a row whose path is the
    tests or the stories directory of the root completes as the plain
    listing of that path does; when it returns, the rows are those of the
    entries of the directory, in order, nothing spliced in, and every one
    of them, file or directory, is marked as a test or story row. *)
Theorem auxiliary_directory_lists_flat {path : PathModule} (this : TreeDataProvider)
        (element : FileItem.t) (w : World) :
  workspaceRoot this <> EmptyString ->
  FileItem.resourceUri element = join (workspaceRoot this) "tests"
  \/ FileItem.resourceUri element = join (workspaceRoot this) "stories" ->
  getChildren this (Some element) w
  = getAllFilesInDirectory this (FileItem.resourceUri element) w
  /\ forall items,
      result_of (getChildren this (Some element)) w = Normal items ->
      exists names,
        listing (files w) (FileItem.resourceUri element) = Normal names
        /\ items = map (row (files w) (FileItem.resourceUri element) true) names
        /\ map FileItem.label items = names
        /\ Forall (fun f => FileItem.isTestOrStoryFile f = Some true) items.
Proof.
  intros Hroot Haux.
  assert (D : inTestOrStoryDirectory this (FileItem.resourceUri element) = true).
  { unfold inTestOrStoryDirectory. apply orb_true_iff.
    destruct Haux as [-> | ->]; [left | right]; apply String.eqb_refl. }
  assert (G : getChildren this (Some element) w
              = getAllFilesInDirectory this (FileItem.resourceUri element) w).
  { unfold getChildren. now rewrite (root_set_eqb this Hroot), D. }
  split; [exact G|].
  intros items R. unfold result_of in R. rewrite G in R.
  destruct (getAllFilesInDirectory this (FileItem.resourceUri element) w) as [c w'] eqn:A.
  simpl in R. subst c.
  destruct (getAllFilesInDirectory_inv this _ _ _ _ A) as (names & Hl & -> & _).
  rewrite D. exists names.
  repeat split; [exact Hl | apply labels_of_rows | apply rows_marked].
Qed.

Lemma auxiliary_directory_lists_flat_witness :
  workspaceRoot web_src <> EmptyString
  /\ (FileItem.resourceUri (directory_row "stories" "/app/web/src/stories")
      = join (PathModule := posix) (workspaceRoot web_src) "tests"
      \/ FileItem.resourceUri (directory_row "stories" "/app/web/src/stories")
         = join (PathModule := posix) (workspaceRoot web_src) "stories")
  /\ getChildren (path := posix) web_src
                 (Some (directory_row "stories" "/app/web/src/stories"))
                 (world_of two_components)
     = getAllFilesInDirectory (path := posix) web_src "/app/web/src/stories"
                              (world_of two_components).
Proof.
  split; [discriminate|]. split; [right; reflexivity|].
  apply (auxiliary_directory_lists_flat (path := posix) web_src
           (directory_row "stories" "/app/web/src/stories") (world_of two_components)).
  - discriminate.
  - right. reflexivity.
Defined.

(** C10, as the code has it.  A path is taken for an auxiliary directory
    exactly when it is the tests or the stories directory of the root.
    With the root set, a row at any other path, whatever its name, is
    expanded by the merge: the row of each of the directory's own entries
    is in the result and is not marked, and every row of the result is
    either such an unmarked entry row or a marked row spliced in from one
    of the two directories of the root. *)
Theorem other_directories_are_merged {path : PathModule} (this : TreeDataProvider)
        (element : FileItem.t) (w : World) :
  workspaceRoot this <> EmptyString ->
  FileItem.resourceUri element <> join (workspaceRoot this) "tests" ->
  FileItem.resourceUri element <> join (workspaceRoot this) "stories" ->
  (forall p, inTestOrStoryDirectory this p = true
             <-> p = join (workspaceRoot this) "tests"
                 \/ p = join (workspaceRoot this) "stories")
  /\ getChildren this (Some element) w
     = getCombinedComponentsWithTestFiles this (FileItem.resourceUri element) w
  /\ (forall rows,
         result_of (getAllFilesInDirectory this (FileItem.resourceUri element)) w
         = Normal rows ->
         Forall (fun f => FileItem.isTestOrStoryFile f = Some false) rows)
  /\ (forall items,
         result_of (getChildren this (Some element)) w = Normal items ->
         exists names,
           listing (files w) (FileItem.resourceUri element) = Normal names
           /\ items = flat_map
                        (group this (files w) (FileItem.resourceUri element)
                               (entries (files w) (join (workspaceRoot this) "tests"))
                               (entries (files w) (join (workspaceRoot this) "stories")))
                        names
           /\ (forall n, In n names ->
                         In (row (files w) (FileItem.resourceUri element) false n) items
                         /\ is_auxiliary
                              (row (files w) (FileItem.resourceUri element) false n)
                            = false)
           /\ forall f, In f items ->
                (is_auxiliary f = false
                 /\ exists n, In n names
                              /\ f = row (files w) (FileItem.resourceUri element) false n)
                \/ (is_auxiliary f = true
                    /\ exists x,
                        In x (entries (files w) (join (workspaceRoot this) "tests"))
                        /\ f = row (files w) (join (workspaceRoot this) "tests") true x
                        \/ In x (entries (files w) (join (workspaceRoot this) "stories"))
                           /\ f = row (files w) (join (workspaceRoot this) "stories")
                                      true x)).
Proof.
  intros Hroot Ht Hs.
  assert (D : inTestOrStoryDirectory this (FileItem.resourceUri element) = false).
  { unfold inTestOrStoryDirectory. apply orb_false_iff.
    split; apply String.eqb_neq; assumption. }
  assert (G : getChildren this (Some element) w
              = getCombinedComponentsWithTestFiles this (FileItem.resourceUri element) w).
  { unfold getChildren. now rewrite (root_set_eqb this Hroot), D. }
  split.
  { intros p. unfold inTestOrStoryDirectory. now rewrite orb_true_iff, !String.eqb_eq. }
  split; [exact G|]. split.
  - intros rows R. unfold result_of in R.
    destruct (getAllFilesInDirectory this (FileItem.resourceUri element) w)
      as [c w'] eqn:A.
    simpl in R. subst c.
    destruct (getAllFilesInDirectory_inv this _ _ _ _ A) as (names & _ & -> & _).
    rewrite D. apply rows_marked.
  - intros items R. unfold result_of in R. rewrite G in R.
    destruct (getCombinedComponentsWithTestFiles this (FileItem.resourceUri element) w)
      as [c w'] eqn:A.
    simpl in R. subst c.
    destruct (getCombinedComponentsWithTestFiles_inv this _ _ _ _ A)
      as (names & Hl & -> & _).
    exists names. split; [exact Hl|]. split; [reflexivity|]. split.
    + intros n Hn. split; [|reflexivity].
      apply in_flat_map. exists n. split; [exact Hn|].
      unfold group. rewrite D. left. reflexivity.
    + intros f Hf. apply in_flat_map in Hf. destruct Hf as (n & Hn & Hf).
      unfold group in Hf. rewrite D in Hf. destruct Hf as [<- | Hf].
      * left. split; [reflexivity|]. now exists n.
      * right. destruct (isTestOrStoryFile n); [contradiction|].
        apply matched_rows_from in Hf.
        destruct Hf as (x & _ & [[Hx ->] | [Hx ->]]);
          (split; [reflexivity|]); exists x; auto.
Qed.

Lemma other_directories_are_merged_witness :
  workspaceRoot web_src <> EmptyString
  /\ FileItem.resourceUri (directory_row "tests" "/app/web/src/ui/tests")
     <> join (PathModule := posix) (workspaceRoot web_src) "tests"
  /\ FileItem.resourceUri (directory_row "tests" "/app/web/src/ui/tests")
     <> join (PathModule := posix) (workspaceRoot web_src) "stories"
  /\ getChildren (path := posix) web_src
                 (Some (directory_row "tests" "/app/web/src/ui/tests"))
                 (world_of nested_tests)
     = getCombinedComponentsWithTestFiles (path := posix) web_src "/app/web/src/ui/tests"
                                          (world_of nested_tests).
Proof.
  split; [discriminate|]. split; [discriminate|]. split; [discriminate|].
  apply (other_directories_are_merged (path := posix) web_src
           (directory_row "tests" "/app/web/src/ui/tests") (world_of nested_tests));
    discriminate.
Defined.

(** C10, as stated, fails: the directory [ui/tests] is not one of the two
    auxiliary directories, and among the rows its expansion returns, the
    one spliced in after [Card.tsx] from the tests directory of the root
    is marked. *)
Lemma nested_tests_expansion_has_a_marked_row :
  inTestOrStoryDirectory (path := posix) web_src "/app/web/src/ui/tests" = false
  /\ result_of (getChildren (path := posix) web_src
                            (Some (directory_row "tests" "/app/web/src/ui/tests")))
               (world_of nested_tests)
     = Normal [row (path := posix) (disk_of nested_tests) "/app/web/src/ui/tests" false
                   "Card.tsx";
               row (path := posix) (disk_of nested_tests) "/app/web/src/tests" true
                   "Card.test.tsx";
               row (path := posix) (disk_of nested_tests) "/app/web/src/ui/tests" false
                   "Card.test.tsx"]
  /\ is_auxiliary (row (path := posix) (disk_of nested_tests) "/app/web/src/tests" true
                       "Card.test.tsx") = true
  /\ FileItem.resourceUri (row (path := posix) (disk_of nested_tests)
                               "/app/web/src/tests" true "Card.test.tsx")
     = "/app/web/src/tests/Card.test.tsx".
Proof.
  split; [reflexivity|]. split; [vm_compute; reflexivity|].
  split; reflexivity.
Qed.

(** ** The merge *)

Lemma disk_of_lstat_answers (table : list (string * Entry)) :
  lstat_answers (disk_of table).
Proof.
  intros p. unfold disk_of. simpl.
  destruct (lookup table p) as [[|names]|]; intros E; try discriminate; eauto.
Qed.

Lemma flat_map_rows {path : PathModule} (disk : FileSystem) (d : string) (flag : bool)
      (g : FileItem.t -> list FileItem.t) (names : list string) :
  flat_map g (map (row disk d flag) names)
  = flat_map (fun n => g (row disk d flag n)) names.
Proof.
  induction names as [|n names IH]; simpl; [reflexivity|]. now rewrite IH.
Qed.

(** C2, as the code has it.  On a disk where the listings return, the
    merge of a directory returns its rows in order, each followed by its
    matches unless its own label contains [.test.] or [.stories.]; whether
    the row is a file or a directory plays no part. *)
Theorem splice_follows_names_not_kinds {path : PathModule} (this : TreeDataProvider)
        (d : string) (w : World) (names testNames storyNames : list string) :
  lstat_answers (files w) ->
  listing (files w) d = Normal names ->
  listing (files w) (join (workspaceRoot this) "tests") = Normal testNames ->
  listing (files w) (join (workspaceRoot this) "stories") = Normal storyNames ->
  exists rows,
    getAllFilesInDirectory this d w = (Normal rows, w)
    /\ map FileItem.label rows = names
    /\ getCombinedComponentsWithTestFiles this d w
       = (Normal (flat_map
                    (fun f =>
                       f :: (if isTestOrStoryFile (FileItem.label f) then []
                             else matched_rows this (files w) testNames storyNames
                                               (FileItem.label f)))
                    rows), w).
Proof.
  intros L Hd Ht Hs.
  exists (map (row (files w) d (inTestOrStoryDirectory this d)) names).
  split; [apply getAllFilesInDirectory_total; assumption|].
  split; [apply labels_of_rows|].
  rewrite (getCombinedComponentsWithTestFiles_total this d w names testNames storyNames
             L Hd Ht Hs).
  now rewrite flat_map_rows.
Qed.

Lemma splice_follows_names_not_kinds_witness :
  lstat_answers (files (world_of component_directory))
  /\ listing (files (world_of component_directory)) "/app/web/src/ui" = Normal ["Button"]
  /\ exists rows,
      getAllFilesInDirectory (path := posix) web_src "/app/web/src/ui"
                             (world_of component_directory)
      = (Normal rows, world_of component_directory)
      /\ map FileItem.label rows = ["Button"].
Proof.
  split; [apply disk_of_lstat_answers|]. split; [reflexivity|].
  destruct (splice_follows_names_not_kinds (path := posix) web_src "/app/web/src/ui"
              (world_of component_directory) ["Button"] ["Button.test.tsx"] []
              (disk_of_lstat_answers component_directory) eq_refl eq_refl eq_refl)
    as (rows & A & B & _).
  exists rows. split; [exact A | exact B].
Defined.

(** C2, as stated, fails: the only entry of [ui] is the directory
    [Button], and the merge of [ui] returns its row followed by the row of
    [Button.test.tsx] from the tests directory. *)
Lemma directory_entry_gets_matches :
  result_of (getAllFilesInDirectory (path := posix) web_src "/app/web/src/ui")
            (world_of component_directory)
  = Normal [row (path := posix) (disk_of component_directory) "/app/web/src/ui" false
                "Button"]
  /\ is_directory (row (path := posix) (disk_of component_directory) "/app/web/src/ui"
                       false "Button") = true
  /\ result_of (getCombinedComponentsWithTestFiles (path := posix) web_src
                  "/app/web/src/ui")
               (world_of component_directory)
     = Normal [row (path := posix) (disk_of component_directory) "/app/web/src/ui" false
                   "Button";
               row (path := posix) (disk_of component_directory) "/app/web/src/tests" true
                   "Button.test.tsx"]
  /\ is_auxiliary (row (path := posix) (disk_of component_directory)
                       "/app/web/src/tests" true "Button.test.tsx") = true
  /\ result_of (getCombinedComponentsWithTestFiles (path := posix) web_src
                  "/app/web/src/ui")
               (world_of component_directory)
     <> result_of (getAllFilesInDirectory (path := posix) web_src "/app/web/src/ui")
                  (world_of component_directory).
Proof.
  split; [vm_compute; reflexivity|].
  split; [vm_compute; reflexivity|].
  split; [vm_compute; reflexivity|].
  split; [vm_compute; reflexivity|].
  intros E. apply (f_equal labels) in E. vm_compute in E. discriminate E.
Qed.

(** C4. Where a directory lists [A.tsx; B.tsx], the tests directory lists
    [A.test.tsx] and the stories directory lists
    [B.stories.tsx; A.stories.tsx], the merge of the directory returns
    [A.tsx; A.test.tsx; A.stories.tsx; B.tsx; B.stories.tsx]: the listing
    order is kept, each component is followed by its matches, tests before
    stories, and only the spliced rows are marked. *)
Theorem splice_ordering {path : PathModule} (this : TreeDataProvider)
        (d : string) (w : World) :
  lstat_answers (files w) ->
  listing (files w) d = Normal ["A.tsx"; "B.tsx"] ->
  listing (files w) (join (workspaceRoot this) "tests") = Normal ["A.test.tsx"] ->
  listing (files w) (join (workspaceRoot this) "stories")
  = Normal ["B.stories.tsx"; "A.stories.tsx"] ->
  exists items,
    getCombinedComponentsWithTestFiles this d w = (Normal items, w)
    /\ map FileItem.label items
       = ["A.tsx"; "A.test.tsx"; "A.stories.tsx"; "B.tsx"; "B.stories.tsx"]
    /\ map FileItem.resourceUri items
       = [join d "A.tsx";
          join (join (workspaceRoot this) "tests") "A.test.tsx";
          join (join (workspaceRoot this) "stories") "A.stories.tsx";
          join d "B.tsx";
          join (join (workspaceRoot this) "stories") "B.stories.tsx"]
    /\ map is_auxiliary items = [false; true; true; false; true].
Proof.
  intros L Hd Ht Hs.
  assert (D : inTestOrStoryDirectory this d = false).
  { unfold inTestOrStoryDirectory. apply orb_false_iff.
    split; apply String.eqb_neq; intros ->; rewrite Hd in *; discriminate. }
  eexists. split; [apply (getCombinedComponentsWithTestFiles_total this d w _ _ _ L Hd Ht Hs)|].
  unfold flat_map, group. rewrite D.
  change (isTestOrStoryFile "A.tsx") with false.
  change (isTestOrStoryFile "B.tsx") with false.
  unfold matched_rows.
  change (filter (isTestFile "A.tsx") ["A.test.tsx"]) with ["A.test.tsx"].
  change (filter (isTestFile "B.tsx") ["A.test.tsx"]) with (@nil string).
  change (filter (isTestFile "A.tsx") ["B.stories.tsx"; "A.stories.tsx"])
    with ["A.stories.tsx"].
  change (filter (isTestFile "B.tsx") ["B.stories.tsx"; "A.stories.tsx"])
    with ["B.stories.tsx"].
  repeat split.
Qed.

Lemma splice_ordering_witness :
  lstat_answers (files (world_of two_components))
  /\ listing (files (world_of two_components)) "/app/web/src/ui" = Normal ["A.tsx"; "B.tsx"]
  /\ listing (files (world_of two_components))
             (join (PathModule := posix) (workspaceRoot web_src) "tests")
     = Normal ["A.test.tsx"]
  /\ listing (files (world_of two_components))
             (join (PathModule := posix) (workspaceRoot web_src) "stories")
     = Normal ["B.stories.tsx"; "A.stories.tsx"]
  /\ exists items,
      getCombinedComponentsWithTestFiles (path := posix) web_src "/app/web/src/ui"
                                         (world_of two_components)
      = (Normal items, world_of two_components)
      /\ map FileItem.label items
         = ["A.tsx"; "A.test.tsx"; "A.stories.tsx"; "B.tsx"; "B.stories.tsx"].
Proof.
  split; [apply disk_of_lstat_answers|].
  split; [reflexivity|]. split; [reflexivity|]. split; [reflexivity|].
  destruct (splice_ordering (path := posix) web_src "/app/web/src/ui"
              (world_of two_components) (disk_of_lstat_answers two_components)
              eq_refl eq_refl eq_refl) as (items & R & Hl & _).
  exists items. split; [exact R | exact Hl].
Defined.

Lemma occurrences_in_group {path : PathModule} (f head : FileItem.t)
      (pre aux post : list FileItem.t) :
  In f aux ->
  1 <= occurrences (FileItem.resourceUri f) (pre ++ (head :: aux) ++ post).
Proof.
  intros H. rewrite !occurrences_app.
  pose proof (occurrences_In f aux H).
  pose proof (occurrences_cons_le (FileItem.resourceUri f) head aux). lia.
Qed.

(** The merge of a directory that lists two entries of one stem returns
    the same matches after each. *)
Lemma merge_repeats_matches_of_shared_stem {path : PathModule} (this : TreeDataProvider)
        (d : string) (w : World) (before between after : list string) (a b : string)
        (testNames storyNames : list string) :
  lstat_answers (files w) ->
  listing (files w) d = Normal (before ++ a :: between ++ b :: after)%list ->
  listing (files w) (join (workspaceRoot this) "tests") = Normal testNames ->
  listing (files w) (join (workspaceRoot this) "stories") = Normal storyNames ->
  isTestOrStoryFile a = false ->
  isTestOrStoryFile b = false ->
  stem a = stem b ->
  exists items pre mid post,
    getCombinedComponentsWithTestFiles this d w = (Normal items, w)
    /\ items
       = (pre
          ++ (row (files w) d (inTestOrStoryDirectory this d) a
              :: matched_rows this (files w) testNames storyNames a)
          ++ mid
          ++ (row (files w) d (inTestOrStoryDirectory this d) b
              :: matched_rows this (files w) testNames storyNames a)
          ++ post)%list
    /\ (forall x, In x testNames -> isTestFile a x = true ->
                  2 <= occurrences (join (join (workspaceRoot this) "tests") x) items)
    /\ (forall x, In x storyNames -> isTestFile a x = true ->
                  2 <= occurrences (join (join (workspaceRoot this) "stories") x) items).
Proof.
  intros L Hd Ht Hs Ha Hb Hst.
  set (G := group this (files w) d testNames storyNames).
  set (aux := matched_rows this (files w) testNames storyNames a).
  set (ra := row (files w) d (inTestOrStoryDirectory this d) a).
  set (rb := row (files w) d (inTestOrStoryDirectory this d) b).
  assert (I : flat_map G (before ++ a :: between ++ b :: after)%list
              = (flat_map G before ++ (ra :: aux) ++ flat_map G between
                 ++ (rb :: aux) ++ flat_map G after)%list).
  { rewrite flat_map_app. cbn [flat_map]. rewrite flat_map_app. cbn [flat_map].
    unfold G at 2 4, group. rewrite Ha, Hb.
    rewrite <- (matched_rows_stem this (files w) testNames storyNames a b Hst).
    reflexivity. }
  assert (T : forall f, In f aux ->
                        2 <= occurrences (FileItem.resourceUri f)
                                         (flat_map G before ++ (ra :: aux)
                                          ++ flat_map G between ++ (rb :: aux)
                                          ++ flat_map G after)%list).
  { intros f Hf.
    rewrite occurrences_app, occurrences_app, occurrences_app.
    pose proof (occurrences_in_group f ra [] aux [] Hf) as O1.
    pose proof (occurrences_in_group f rb [] aux (flat_map G after) Hf) as O2.
    rewrite app_nil_r in O1. cbn [app] in O1, O2 |- *. lia. }
  exists (flat_map G (before ++ a :: between ++ b :: after)%list),
         (flat_map G before), (flat_map G between), (flat_map G after).
  split; [apply getCombinedComponentsWithTestFiles_total; assumption|].
  split; [exact I|].
  rewrite I. split; intros x Hx Hm.
  - apply (T (row (files w) (join (workspaceRoot this) "tests") true x)).
    unfold aux, matched_rows. apply in_or_app. left.
    apply in_map, filter_In. auto.
  - apply (T (row (files w) (join (workspaceRoot this) "stories") true x)).
    unfold aux, matched_rows. apply in_or_app. right.
    apply in_map, filter_In. auto.
Qed.

(** C9, as the code has it.  With the workspace root set, where a row
    that is not one of the two auxiliary directories is expanded and the
    listing of its directory has two entries [a] and [b] with the same
    stem, neither named as a test or story file, the query returns the
    row of each followed by the same matches, so every file of the tests
    or stories directory that matches the stem has its path twice or more
    among the rows of that one result. *)
Theorem shared_stem_repeats_matches {path : PathModule} (this : TreeDataProvider)
        (element : FileItem.t) (w : World) (before between after : list string)
        (a b : string) (testNames storyNames : list string) :
  workspaceRoot this <> EmptyString ->
  FileItem.resourceUri element <> join (workspaceRoot this) "tests" ->
  FileItem.resourceUri element <> join (workspaceRoot this) "stories" ->
  lstat_answers (files w) ->
  listing (files w) (FileItem.resourceUri element)
  = Normal (before ++ a :: between ++ b :: after)%list ->
  listing (files w) (join (workspaceRoot this) "tests") = Normal testNames ->
  listing (files w) (join (workspaceRoot this) "stories") = Normal storyNames ->
  isTestOrStoryFile a = false ->
  isTestOrStoryFile b = false ->
  stem a = stem b ->
  exists items pre mid post,
    getChildren this (Some element) w = (Normal items, w)
    /\ items
       = (pre
          ++ (row (files w) (FileItem.resourceUri element) false a
              :: matched_rows this (files w) testNames storyNames a)
          ++ mid
          ++ (row (files w) (FileItem.resourceUri element) false b
              :: matched_rows this (files w) testNames storyNames a)
          ++ post)%list
    /\ (forall x, In x testNames -> isTestFile a x = true ->
                  2 <= occurrences (join (join (workspaceRoot this) "tests") x) items)
    /\ (forall x, In x storyNames -> isTestFile a x = true ->
                  2 <= occurrences (join (join (workspaceRoot this) "stories") x) items).
Proof.
  intros Hroot Nt Ns L Hd Ht Hs Ha Hb Hst.
  assert (D : inTestOrStoryDirectory this (FileItem.resourceUri element) = false).
  { unfold inTestOrStoryDirectory. apply orb_false_iff.
    split; apply String.eqb_neq; assumption. }
  destruct (merge_repeats_matches_of_shared_stem this (FileItem.resourceUri element) w
              before between after a b testNames storyNames L Hd Ht Hs Ha Hb Hst)
    as (items & pre & mid & post & R & I & T & S).
  exists items, pre, mid, post. rewrite D in I.
  split; [|split; [exact I | split; [exact T | exact S]]].
  unfold getChildren. rewrite (root_set_eqb this Hroot), D. exact R.
Qed.

Lemma shared_stem_repeats_matches_witness :
  workspaceRoot web_src <> EmptyString
  /\ FileItem.resourceUri ui_row <> join (PathModule := posix) (workspaceRoot web_src) "tests"
  /\ FileItem.resourceUri ui_row
     <> join (PathModule := posix) (workspaceRoot web_src) "stories"
  /\ lstat_answers (files (world_of component_with_styles))
  /\ listing (files (world_of component_with_styles)) (FileItem.resourceUri ui_row)
     = Normal ([] ++ "Button.tsx" :: [] ++ "Button.css" :: [])%list
  /\ isTestOrStoryFile "Button.tsx" = false
  /\ isTestOrStoryFile "Button.css" = false
  /\ stem "Button.tsx" = stem "Button.css"
  /\ exists items,
      getChildren (path := posix) web_src (Some ui_row) (world_of component_with_styles)
      = (Normal items, world_of component_with_styles)
      /\ 2 <= occurrences "/app/web/src/tests/Button.test.tsx" items.
Proof.
  split; [discriminate|]. split; [discriminate|]. split; [discriminate|].
  split; [apply disk_of_lstat_answers|].
  split; [reflexivity|]. split; [reflexivity|]. split; [reflexivity|].
  split; [reflexivity|].
  destruct (shared_stem_repeats_matches (path := posix) web_src ui_row
              (world_of component_with_styles) [] [] [] "Button.tsx" "Button.css"
              ["Button.test.tsx"] []
              ltac:(discriminate) ltac:(discriminate) ltac:(discriminate)
              (disk_of_lstat_answers component_with_styles)
              eq_refl eq_refl eq_refl eq_refl eq_refl eq_refl)
    as (items & pre & mid & post & R & _ & T & _).
  exists items. split; [exact R|].
  apply (T "Button.test.tsx"); [left; reflexivity | reflexivity].
Defined.

(** C9, as stated, fails for the listing of the root: the root lists
    [Button.tsx] and [Button.css], of one stem and neither named as a test
    or story file, and the tests directory holds the matching
    [Button.test.tsx], yet the root query returns the three rows of the
    root and the path of the test is nowhere among them. *)
Lemma root_query_repeats_no_match :
  listing (files (world_of styled_component_at_top_level)) (workspaceRoot web_src)
  = Normal ["Button.tsx"; "Button.css"; "tests"]
  /\ isTestOrStoryFile "Button.tsx" = false
  /\ isTestOrStoryFile "Button.css" = false
  /\ stem "Button.tsx" = stem "Button.css"
  /\ In "Button.test.tsx"
        (entries (files (world_of styled_component_at_top_level))
                 (join (PathModule := posix) (workspaceRoot web_src) "tests"))
  /\ isTestFile "Button.tsx" "Button.test.tsx" = true
  /\ result_of (getChildren (path := posix) web_src Datatypes.None)
               (world_of styled_component_at_top_level)
     = Normal (map (row (path := posix) (disk_of styled_component_at_top_level)
                        "/app/web/src" false)
                   ["Button.tsx"; "Button.css"; "tests"])
  /\ occurrences "/app/web/src/tests/Button.test.tsx"
                 (map (row (path := posix) (disk_of styled_component_at_top_level)
                           "/app/web/src" false)
                      ["Button.tsx"; "Button.css"; "tests"])
     = 0.
Proof.
  split; [reflexivity|]. split; [reflexivity|]. split; [reflexivity|].
  split; [reflexivity|]. split; [left; reflexivity|]. split; [reflexivity|].
  split; [vm_compute; reflexivity | reflexivity].
Qed.

(** ** More on names *)

Lemma includes_unfold (s sub : string) :
  JsString.includes s sub
  = if String.eqb (substring 0 (String.length sub) s) sub then true
    else match s with
         | EmptyString => false
         | String _ rest => JsString.includes rest sub
         end.
Proof. destruct s; reflexivity. Qed.

Lemma includes_iff (s sub : string) :
  JsString.includes s sub = true <-> contains s sub.
Proof.
  split.
  - induction s as [|c s IH]; cbn [JsString.includes].
    + destruct (String.eqb_spec (substring 0 (String.length sub) EmptyString) sub)
        as [E|E]; [|intros H; discriminate H].
      intros _. apply substring_prefix_iff in E. destruct E as [rest E].
      exists EmptyString, rest. exact E.
    + destruct (String.eqb_spec (substring 0 (String.length sub) (String c s)) sub)
        as [E|E].
      * intros _. apply substring_prefix_iff in E. destruct E as [rest E].
        exists EmptyString, rest. exact E.
      * intros H. destruct (IH H) as (pre & post & ->).
        exists (String c pre), post. reflexivity.
  - intros (pre & post & ->). induction pre as [|c pre IH].
    + assert (E : substring 0 (String.length sub) (sub ++ post) = sub).
      { apply substring_prefix_iff. now exists post. }
      cbn [append]. rewrite includes_unfold, E, String.eqb_refl. reflexivity.
    + cbn [append JsString.includes].
      destruct (String.eqb _ _); [reflexivity | exact IH].
Qed.

Lemma stem_before_dot (s rest : string) :
  stem (stem s ++ String "."%char rest) = stem s.
Proof.
  induction s as [|c s IH]; simpl.
  - reflexivity.
  - destruct (Ascii.eqb c "."%char) eqn:E; simpl.
    + reflexivity.
    + now rewrite E, IH.
Qed.

Lemma append_assoc (a b c : string) : (a ++ b) ++ c = a ++ (b ++ c).
Proof. induction a as [|x a IH]; simpl; [reflexivity | now rewrite IH]. Qed.

Lemma isTestOrStoryFile_contains_intro (label : string) :
  contains label ".test." \/ contains label ".stories." ->
  isTestOrStoryFile label = true.
Proof.
  unfold isTestOrStoryFile. now rewrite orb_true_iff, !includes_iff.
Qed.

(** X1. A label is taken for a test or story file exactly when it holds
    [.test.] or [.stories.] somewhere, at its start, in its middle or at
    its end. *)
Theorem isTestOrStoryFile_iff_contains (label : string) :
  isTestOrStoryFile label = true
  <-> contains label ".test." \/ contains label ".stories.".
Proof.
  unfold isTestOrStoryFile. now rewrite orb_true_iff, !includes_iff.
Qed.

Lemma isTestFile_test_name (componentLabel fileName : string) :
  isTestFile componentLabel fileName = true -> isTestOrStoryFile fileName = true.
Proof.
  unfold isTestFile. rewrite orb_true_iff, !indexOf_zero_iff, template_at_split.
  intros [[rest ->] | [rest ->]]; apply isTestOrStoryFile_contains_intro; [left | right];
    exists (stem componentLabel), rest; now rewrite append_assoc.
Qed.

Lemma isTestFile_same_stem (componentLabel fileName : string) :
  isTestFile componentLabel fileName = true -> stem fileName = stem componentLabel.
Proof.
  unfold isTestFile. rewrite orb_true_iff, !indexOf_zero_iff, template_at_split.
  intros [[rest ->] | [rest ->]]; rewrite append_assoc; apply stem_before_dot.
Qed.

(** X2. A name that matches a component is itself named as a test or
    story file and has the stem of the component: no file is matched by
    components of two different stems, and a match is never a source of
    further matches. *)
Theorem match_has_test_name_and_stem (componentLabel fileName : string) :
  isTestFile componentLabel fileName = true ->
  isTestOrStoryFile fileName = true /\ stem fileName = stem componentLabel.
Proof.
  intros H. split; [exact (isTestFile_test_name _ _ H) | exact (isTestFile_same_stem _ _ H)].
Qed.

Lemma match_has_test_name_and_stem_witness :
  isTestFile "Button.tsx" "Button.stories.tsx" = true
  /\ isTestOrStoryFile "Button.stories.tsx" = true
  /\ stem "Button.stories.tsx" = stem "Button.tsx".
Proof.
  split; [reflexivity|].
  exact (match_has_test_name_and_stem "Button.tsx" "Button.stories.tsx" eq_refl).
Defined.

(** ** The rows a query returns *)

Lemma row_well_formed {path : PathModule} (disk : FileSystem) (d : string) (flag : bool)
      (n : string) :
  well_formed (row disk d flag n).
Proof.
  unfold well_formed, row. cbn.
  split; [reflexivity|]. split.
  - exists flag. split; [reflexivity|]. now destruct flag.
  - destruct (on_exists disk (join d n) && _); [left | right]; split; reflexivity.
Qed.

Lemma group_rows {path : PathModule} (this : TreeDataProvider) (disk : FileSystem)
      (d : string) (testNames storyNames : list string) (n : string) (f : FileItem.t) :
  In f (group this disk d testNames storyNames n) ->
  exists d' flag n', f = row disk d' flag n'.
Proof.
  unfold group. intros [<- | H]; [eauto|].
  destruct (isTestOrStoryFile n); [contradiction|].
  apply matched_rows_from in H. destruct H as (x & _ & [[_ ->] | [_ ->]]); eauto.
Qed.

Lemma getChildren_returns_rows {path : PathModule} (this : TreeDataProvider)
      (element : option FileItem.t) (w : World) (items : list FileItem.t) :
  result_of (getChildren this element) w = Normal items ->
  Forall (fun f => exists d flag n, f = row (files w) d flag n) items.
Proof.
  unfold result_of, getChildren.
  destruct (String.eqb (workspaceRoot this) EmptyString).
  { cbn. intros E. injection E as <-. constructor. }
  assert (Flat : forall d,
             fst (getAllFilesInDirectory this d w) = Normal items ->
             Forall (fun f => exists d flag n, f = row (files w) d flag n) items).
  { intros d R. destruct (getAllFilesInDirectory this d w) as [c w'] eqn:A.
    simpl in R. subst c.
    destruct (getAllFilesInDirectory_inv this _ _ _ _ A) as (names & _ & -> & _).
    apply Forall_forall. intros f Hf. apply in_map_iff in Hf.
    destruct Hf as (n & <- & _). eauto. }
  destruct element as [element|]; [|apply Flat].
  destruct (negb _); [|apply Flat].
  intros R.
  destruct (getCombinedComponentsWithTestFiles this (FileItem.resourceUri element) w)
    as [c w'] eqn:A.
  simpl in R. subst c.
  destruct (getCombinedComponentsWithTestFiles_inv this _ _ _ _ A) as (names & _ & -> & _).
  apply Forall_forall. intros f Hf. apply in_flat_map in Hf.
  destruct Hf as (n & _ & Hf). exact (group_rows _ _ _ _ _ _ _ Hf).
Qed.

(** X3. Every row a query returns is well formed: its tooltip is its
    path, its marker is a boolean that the test logo follows, and it is
    either collapsed without a command or not expandable with the command
    that opens its own path; no row is returned expanded. *)
Theorem returned_rows_are_well_formed {path : PathModule} (this : TreeDataProvider)
        (element : option FileItem.t) (w : World) (items : list FileItem.t) :
  result_of (getChildren this element) w = Normal items ->
  Forall well_formed items.
Proof.
  intros R. apply getChildren_returns_rows in R.
  eapply Forall_impl; [|exact R].
  intros f (d & flag & n & ->). apply row_well_formed.
Qed.

Lemma returned_rows_are_well_formed_witness :
  result_of (getChildren (path := posix) web_src (Some ui_row)) (world_of two_components)
  = Normal (flat_map (group (path := posix) web_src (disk_of two_components)
                            "/app/web/src/ui" ["A.test.tsx"]
                            ["B.stories.tsx"; "A.stories.tsx"])
                     ["A.tsx"; "B.tsx"])
  /\ Forall well_formed
            (flat_map (group (path := posix) web_src (disk_of two_components)
                             "/app/web/src/ui" ["A.test.tsx"]
                             ["B.stories.tsx"; "A.stories.tsx"])
                      ["A.tsx"; "B.tsx"]).
Proof.
  split; [vm_compute; reflexivity|].
  apply (returned_rows_are_well_formed (path := posix) web_src (Some ui_row)
           (world_of two_components)).
  vm_compute. reflexivity.
Defined.

(** X4. A row a query returns is shown as a directory exactly when, on
    the disk the query ran on, its path exists and [lstatSync] says it is
    a directory; any other row, a path that does not exist included, is
    shown as a file. *)
Theorem returned_rows_have_the_kind_on_disk {path : PathModule} (this : TreeDataProvider)
        (element : option FileItem.t) (w : World) (items : list FileItem.t) :
  result_of (getChildren this element) w = Normal items ->
  forall f, In f items ->
    (is_directory f = true
     <-> on_exists (files w) (FileItem.resourceUri f) = true
         /\ exists stats, on_lstat (files w) (FileItem.resourceUri f) = inr stats
                          /\ isDirectory stats = true).
Proof.
  intros R f Hf. apply getChildren_returns_rows in R.
  rewrite Forall_forall in R. destruct (R f Hf) as (d & flag & n & ->).
  unfold is_directory, row. cbn.
  destruct (on_exists (files w) (join d n)); cbn.
  - destruct (on_lstat (files w) (join d n)) as [err|stats].
    + split; [discriminate|]. intros (_ & stats & E & _). discriminate E.
    + destruct (isDirectory stats) eqn:D.
      * split; [|reflexivity]. intros _. split; [reflexivity|]. now exists stats.
      * split; [discriminate|]. intros (_ & stats' & E & D').
        injection E as <-. congruence.
  - split; [discriminate|]. intros [E _]. discriminate E.
Qed.

Lemma returned_rows_have_the_kind_on_disk_witness :
  In ui_row [ui_row; directory_row "tests" "/app/web/src/tests";
             directory_row "stories" "/app/web/src/stories"]
  /\ (is_directory ui_row = true
      <-> on_exists (files (world_of two_components)) (FileItem.resourceUri ui_row) = true
          /\ exists stats,
              on_lstat (files (world_of two_components)) (FileItem.resourceUri ui_row)
              = inr stats
              /\ isDirectory stats = true).
Proof.
  split; [left; reflexivity|].
  apply (returned_rows_have_the_kind_on_disk (path := posix) web_src Datatypes.None
           (world_of two_components)
           [ui_row; directory_row "tests" "/app/web/src/tests";
            directory_row "stories" "/app/web/src/stories"]).
  - vm_compute. reflexivity.
  - left. reflexivity.
Defined.

(** X5. With the workspace root set a query only reads: it shows no
    notice, fires no change event and leaves the world exactly as it found
    it, whether it returns or throws. *)
Theorem set_root_queries_only_read {path : PathModule} (this : TreeDataProvider)
        (element : option FileItem.t) (w : World) :
  workspaceRoot this <> EmptyString ->
  world_after (getChildren this element) w = w.
Proof.
  intros Hroot. unfold getChildren. rewrite (root_set_eqb this Hroot).
  destruct element as [element|].
  - destruct (negb _).
    + apply reader_getCombinedComponentsWithTestFiles.
    + apply reader_getAllFilesInDirectory.
  - apply reader_getAllFilesInDirectory.
Qed.

Lemma set_root_queries_only_read_witness :
  workspaceRoot web_src <> EmptyString
  /\ world_after (getChildren (path := posix) web_src (Some ui_row)) two_components_later
     = two_components_later.
Proof.
  split; [discriminate|].
  apply (set_root_queries_only_read (path := posix) web_src (Some ui_row)
           two_components_later).
  discriminate.
Defined.

(** ** Errors that reach the caller *)

Lemma getAllFilesInDirectory_listing_throws {path : PathModule} (this : TreeDataProvider)
      (d : string) (w : World) (err : Errno) :
  listing (files w) d = Throw err ->
  getAllFilesInDirectory this d w = (Throw err, w).
Proof.
  intros E. unfold getAllFilesInDirectory.
  now rewrite (bind_eq _ _ _ _ _ (getAllFileNamesInDirectory_run d w)), E.
Qed.

Lemma getCombined_base_throws {path : PathModule} (this : TreeDataProvider)
      (d : string) (w : World) (err : Errno) :
  getAllFilesInDirectory this d w = (Throw err, w) ->
  getCombinedComponentsWithTestFiles this d w = (Throw err, w).
Proof.
  intros E. unfold getCombinedComponentsWithTestFiles.
  now rewrite (bind_eq _ _ _ _ _ E).
Qed.

Lemma getChildren_base_throws {path : PathModule} (this : TreeDataProvider)
      (element : option FileItem.t) (w : World) (err : Errno) :
  workspaceRoot this <> EmptyString ->
  getAllFilesInDirectory this (queried_path this element) w = (Throw err, w) ->
  getChildren this element w = (Throw err, w).
Proof.
  intros Hroot E. unfold getChildren. rewrite (root_set_eqb this Hroot).
  destruct element as [element|]; [|exact E]. cbn [queried_path] in E.
  destruct (negb _); [apply getCombined_base_throws|]; exact E.
Qed.

(** X6. Only the existence check is guarded.  With the workspace root
    set, when the queried path can be reached but [readdirSync] throws on
    it (it is a file, or may not be read), the query throws that error,
    for the root query and for the expansion of any row alike. *)
Theorem readdir_error_reaches_the_caller {path : PathModule} (this : TreeDataProvider)
        (element : option FileItem.t) (w : World) (err : Errno) :
  workspaceRoot this <> EmptyString ->
  on_access (files w) (queried_path this element) = Datatypes.None ->
  on_readdir (files w) (queried_path this element) = inl err ->
  getChildren this element w = (Throw err, w).
Proof.
  intros Hroot Ha Hr. apply getChildren_base_throws; [exact Hroot|].
  apply getAllFilesInDirectory_listing_throws. unfold listing. now rewrite Ha, Hr.
Qed.

Lemma readdir_error_reaches_the_caller_witness :
  workspaceRoot web_src <> EmptyString
  /\ on_access (files (world_of tests_is_a_file))
               (queried_path web_src (Some (directory_row "tests" "/app/web/src/tests")))
     = Datatypes.None
  /\ on_readdir (files (world_of tests_is_a_file))
                (queried_path web_src (Some (directory_row "tests" "/app/web/src/tests")))
     = inl ENOTDIR
  /\ getChildren (path := posix) web_src
                 (Some (directory_row "tests" "/app/web/src/tests"))
                 (world_of tests_is_a_file)
     = (Throw ENOTDIR, world_of tests_is_a_file).
Proof.
  split; [discriminate|]. split; [reflexivity|]. split; [reflexivity|].
  apply (readdir_error_reaches_the_caller (path := posix) web_src
           (Some (directory_row "tests" "/app/web/src/tests"))
           (world_of tests_is_a_file) ENOTDIR);
    [discriminate | reflexivity | reflexivity].
Defined.

Lemma rows_throw_at {path : PathModule} (d : string) (flag : bool) (w : World)
      (before after : list string) (n : string) (err : Errno) :
  (forall m, In m before ->
             on_exists (files w) (join d m) = false
             \/ exists stats, on_lstat (files w) (join d m) = inr stats) ->
  on_exists (files w) (join d n) = true ->
  on_lstat (files w) (join d n) = inl err ->
  array_map (fun element => createFileItem element d flag) (before ++ n :: after)%list w
  = (Throw err, w).
Proof.
  intros Hb Hx Hl. induction before as [|m before IH]; cbn [app array_map].
  - destruct (createFileItem_run n d flag w) as [E | (err' & _ & El & E)].
    + exfalso. revert E.
      unfold createFileItem, and_then, bind, Fs.existsSync, Fs.lstatSync, ret.
      rewrite Hx, Hl. discriminate.
    + rewrite (bind_eq _ _ _ _ _ E). congruence.
  - destruct (createFileItem_run m d flag w) as [E | (err' & Ex & El & _)].
    + rewrite (bind_eq _ _ _ _ _ E).
      rewrite (bind_eq _ _ _ _ _ (IH (fun k Hk => Hb k (or_intror Hk)))). reflexivity.
    + exfalso. destruct (Hb m (or_introl eq_refl)) as [F | [stats F]]; congruence.
Qed.

(** X7. With the workspace root set, when the queried directory lists
    an entry that exists but on which [lstatSync] throws, and the entries
    listed before it raise no such error, the query throws that error
    instead of returning the other rows. *)
Theorem lstat_error_reaches_the_caller {path : PathModule} (this : TreeDataProvider)
        (element : option FileItem.t) (w : World)
        (before after : list string) (n : string) (err : Errno) :
  workspaceRoot this <> EmptyString ->
  listing (files w) (queried_path this element) = Normal (before ++ n :: after)%list ->
  (forall m, In m before ->
             on_exists (files w) (join (queried_path this element) m) = false
             \/ exists stats,
                 on_lstat (files w) (join (queried_path this element) m) = inr stats) ->
  on_exists (files w) (join (queried_path this element) n) = true ->
  on_lstat (files w) (join (queried_path this element) n) = inl err ->
  getChildren this element w = (Throw err, w).
Proof.
  intros Hroot Hl Hb Hx He. apply getChildren_base_throws; [exact Hroot|].
  unfold getAllFilesInDirectory.
  rewrite (bind_eq _ _ _ _ _ (getAllFileNamesInDirectory_run _ w)), Hl.
  now apply rows_throw_at.
Qed.

Lemma lstat_error_reaches_the_caller_witness :
  workspaceRoot web_src <> EmptyString
  /\ listing (with_lstat_failure (disk_of two_components) "/app/web/src/ui/B.tsx" EACCES)
             "/app/web/src/ui"
     = Normal (["A.tsx"] ++ "B.tsx" :: [])%list
  /\ getChildren (path := posix) web_src (Some ui_row)
                 (world_on (with_lstat_failure (disk_of two_components)
                                               "/app/web/src/ui/B.tsx" EACCES))
     = (Throw EACCES,
        world_on (with_lstat_failure (disk_of two_components)
                                     "/app/web/src/ui/B.tsx" EACCES)).
Proof.
  split; [discriminate|]. split; [reflexivity|].
  apply (lstat_error_reaches_the_caller (path := posix) web_src (Some ui_row)
           (world_on (with_lstat_failure (disk_of two_components)
                                         "/app/web/src/ui/B.tsx" EACCES))
           ["A.tsx"] [] "B.tsx" EACCES).
  - discriminate.
  - reflexivity.
  - intros m [<- | []]. right. eexists. reflexivity.
  - reflexivity.
  - reflexivity.
Defined.

(** ** More on the merge *)

Lemma findMatchingFiles_listing_throws {path : PathModule} (d componentLabel : string)
      (w : World) (err : Errno) :
  listing (files w) d = Throw err ->
  findMatchingFiles d componentLabel w = (Throw err, w).
Proof.
  intros E. unfold findMatchingFiles.
  now rewrite (bind_eq _ _ _ _ _ (getAllFileNamesInDirectory_run d w)), E.
Qed.

Lemma findMatchingFiles_nothing_listed {path : PathModule} (d componentLabel : string)
      (w : World) :
  listing (files w) d = Normal [] ->
  findMatchingFiles d componentLabel w = (Normal [], w).
Proof.
  intros E. unfold findMatchingFiles.
  now rewrite (bind_eq _ _ _ _ _ (getAllFileNamesInDirectory_run d w)), E.
Qed.

(** X8. On a disk where [lstatSync] answers, when the directory lists at
    least one entry not named as a test or story file and the tests
    directory, or else the stories directory, can be reached but not
    listed, the merge throws that error: no row of the directory is
    returned. *)
Theorem unreadable_auxiliary_directory_fails_the_merge {path : PathModule}
        (this : TreeDataProvider) (d : string) (w : World) (names : list string)
        (err : Errno) :
  lstat_answers (files w) ->
  listing (files w) d = Normal names ->
  Exists (fun n => isTestOrStoryFile n = false) names ->
  listing (files w) (join (workspaceRoot this) "tests") = Throw err
  \/ (exists testNames,
         listing (files w) (join (workspaceRoot this) "tests") = Normal testNames)
     /\ listing (files w) (join (workspaceRoot this) "stories") = Throw err ->
  getCombinedComponentsWithTestFiles this d w = (Throw err, w).
Proof.
  intros L Hd Hex Haux. unfold getCombinedComponentsWithTestFiles.
  rewrite (bind_eq _ _ _ _ _ (getAllFilesInDirectory_total this d w names L Hd)).
  set (flag := inTestOrStoryDirectory this d).
  match goal with |- array_forEach ?F _ _ _ = _ => set (callback := F) end.
  clear Hd. revert Hex. generalize (@nil FileItem.t) as acc.
  induction names as [|n names IH]; intros acc Hex; [inversion Hex|].
  cbn [map array_forEach].
  destruct (isTestOrStoryFile n) eqn:Hn.
  - assert (B : callback (row (files w) d flag n) acc w
                = (Normal (acc ++ [row (files w) d flag n])%list, w)).
    { unfold callback. cbn [FileItem.label row FileItem.new]. now rewrite Hn. }
    rewrite (bind_eq _ _ _ _ _ B). apply IH.
    inversion Hex as [? ? H | ? ? H]; subst; [congruence | exact H].
  - assert (B : callback (row (files w) d flag n) acc w = (Throw err, w)).
    { unfold callback. cbn [FileItem.label row FileItem.new]. rewrite Hn. cbn [negb].
      destruct Haux as [Ht | [[testNames Ht] Hs]].
      - now rewrite (bind_eq _ _ _ _ _ (findMatchingFiles_listing_throws _ n w err Ht)).
      - rewrite (bind_eq _ _ _ _ _ (findMatchingFiles_total _ n w _ L Ht)).
        now rewrite (bind_eq _ _ _ _ _ (findMatchingFiles_listing_throws _ n w err Hs)). }
    now rewrite (bind_eq _ _ _ _ _ B).
Qed.

Lemma unreadable_auxiliary_directory_fails_the_merge_witness :
  lstat_answers (files (world_of tests_is_a_file))
  /\ listing (files (world_of tests_is_a_file)) "/app/web/src/ui"
     = Normal ["A.test.tsx"; "A.tsx"]
  /\ Exists (fun n => isTestOrStoryFile n = false) ["A.test.tsx"; "A.tsx"]
  /\ listing (files (world_of tests_is_a_file))
             (join (PathModule := posix) (workspaceRoot web_src) "tests")
     = Throw ENOTDIR
  /\ getCombinedComponentsWithTestFiles (path := posix) web_src "/app/web/src/ui"
                                        (world_of tests_is_a_file)
     = (Throw ENOTDIR, world_of tests_is_a_file).
Proof.
  assert (E : Exists (fun n => isTestOrStoryFile n = false) ["A.test.tsx"; "A.tsx"]).
  { apply Exists_cons_tl, Exists_cons_hd. reflexivity. }
  split; [apply disk_of_lstat_answers|]. split; [reflexivity|].
  split; [exact E|]. split; [reflexivity|].
  apply (unreadable_auxiliary_directory_fails_the_merge (path := posix) web_src
           "/app/web/src/ui" (world_of tests_is_a_file) ["A.test.tsx"; "A.tsx"] ENOTDIR
           (disk_of_lstat_answers tests_is_a_file) eq_refl E).
  left. reflexivity.
Defined.

Lemma merge_passes {path : PathModule} (this : TreeDataProvider) (d : string) (w : World) :
  (forall n, In n (entries (files w) d) ->
             isTestOrStoryFile n = true
             \/ (findMatchingFiles (join (workspaceRoot this) "tests") n w = (Normal [], w)
                 /\ findMatchingFiles (join (workspaceRoot this) "stories") n w
                    = (Normal [], w))) ->
  getCombinedComponentsWithTestFiles this d w = getAllFilesInDirectory this d w.
Proof.
  intros H. unfold getCombinedComponentsWithTestFiles.
  pose proof (reader_run _ w (proj1 (reader_getAllFilesInDirectory this d))) as A.
  destruct (result_of (getAllFilesInDirectory this d) w) as [items|err];
    rewrite (bind_eq _ _ _ _ _ A); [|now rewrite A].
  destruct (getAllFilesInDirectory_inv this _ _ _ _ A) as (names & Hl & -> & _).
  rewrite (entries_listing _ _ _ Hl) in H. rewrite A.
  set (flag := inTestOrStoryDirectory this d).
  match goal with |- array_forEach ?F _ _ _ = _ => set (callback := F) end.
  clear A Hl.
  change (map (row (files w) d flag) names)
    with ([] ++ map (row (files w) d flag) names)%list at 2.
  generalize (@nil FileItem.t) as acc.
  induction names as [|n names IH]; intros acc; cbn [map array_forEach].
  - now rewrite app_nil_r.
  - assert (B : callback (row (files w) d flag n) acc w
                = (Normal (acc ++ [row (files w) d flag n])%list, w)).
    { unfold callback. cbn [FileItem.label row FileItem.new].
      destruct (H n (or_introl eq_refl)) as [-> | [T S]]; [reflexivity|].
      destruct (isTestOrStoryFile n); [reflexivity|]. cbn [negb].
      rewrite (bind_eq _ _ _ _ _ T), (bind_eq _ _ _ _ _ S).
      unfold ret. now rewrite !app_nil_r. }
    rewrite (bind_eq _ _ _ _ _ B), (IH (fun k Hk => H k (or_intror Hk))).
    now rewrite <- app_assoc.
Qed.

(** X9. When neither the tests nor the stories directory lists a file,
    because it is missing or empty, the merge of a directory completes
    exactly as its plain listing does: the same rows, or the same error. *)
Theorem merge_without_auxiliary_files_is_the_listing {path : PathModule}
        (this : TreeDataProvider) (d : string) (w : World) :
  listing (files w) (join (workspaceRoot this) "tests") = Normal [] ->
  listing (files w) (join (workspaceRoot this) "stories") = Normal [] ->
  getCombinedComponentsWithTestFiles this d w = getAllFilesInDirectory this d w.
Proof.
  intros Ht Hs. apply merge_passes. intros n _. right.
  split; apply findMatchingFiles_nothing_listed; assumption.
Qed.

Lemma merge_without_auxiliary_files_is_the_listing_witness :
  listing (files (world_of no_auxiliary_directories))
          (join (PathModule := posix) (workspaceRoot web_src) "tests") = Normal []
  /\ listing (files (world_of no_auxiliary_directories))
             (join (PathModule := posix) (workspaceRoot web_src) "stories") = Normal []
  /\ getCombinedComponentsWithTestFiles (path := posix) web_src "/app/web/src/ui"
                                        (world_of no_auxiliary_directories)
     = getAllFilesInDirectory (path := posix) web_src "/app/web/src/ui"
                              (world_of no_auxiliary_directories).
Proof.
  split; [reflexivity|]. split; [reflexivity|].
  apply (merge_without_auxiliary_files_is_the_listing (path := posix) web_src
           "/app/web/src/ui" (world_of no_auxiliary_directories));
    reflexivity.
Defined.

(** X10. When every entry the directory lists is named as a test or
    story file, the merge never reads the tests or the stories directory:
    it completes exactly as the plain listing does, even where those
    directories cannot be listed. *)
Theorem merge_of_test_named_entries_is_the_listing {path : PathModule}
        (this : TreeDataProvider) (d : string) (w : World) :
  Forall (fun n => isTestOrStoryFile n = true) (entries (files w) d) ->
  getCombinedComponentsWithTestFiles this d w = getAllFilesInDirectory this d w.
Proof.
  intros H. apply merge_passes. intros n Hn. left.
  rewrite Forall_forall in H. exact (H n Hn).
Qed.

Lemma merge_of_test_named_entries_is_the_listing_witness :
  Forall (fun n => isTestOrStoryFile n = true)
         (entries (files (world_of only_test_named)) "/app/web/src/ui")
  /\ listing (files (world_of only_test_named))
             (join (PathModule := posix) (workspaceRoot web_src) "tests")
     = Throw ENOTDIR
  /\ getCombinedComponentsWithTestFiles (path := posix) web_src "/app/web/src/ui"
                                        (world_of only_test_named)
     = getAllFilesInDirectory (path := posix) web_src "/app/web/src/ui"
                              (world_of only_test_named).
Proof.
  assert (F : Forall (fun n => isTestOrStoryFile n = true)
                     (entries (files (world_of only_test_named)) "/app/web/src/ui")).
  { repeat constructor. }
  split; [exact F|]. split; [reflexivity|].
  exact (merge_of_test_named_entries_is_the_listing (path := posix) web_src
           "/app/web/src/ui" (world_of only_test_named) F).
Defined.

Lemma matched_rows_marked {path : PathModule} (this : TreeDataProvider) (disk : FileSystem)
      (testNames storyNames : list string) (componentLabel : string) :
  filter unmarked (matched_rows this disk testNames storyNames componentLabel) = [].
Proof.
  unfold matched_rows. rewrite filter_app.
  assert (N : forall d names, filter unmarked (map (row disk d true) names) = []).
  { intros d names. induction names as [|x names IH]; [reflexivity | exact IH]. }
  now rewrite !N.
Qed.

(** X11. When the merge of a directory that is not one of the two
    auxiliary directories returns, it has dropped and reordered nothing:
    taking the marked rows out of its result leaves exactly the plain
    listing of the directory, which also returns. *)
Theorem merge_keeps_the_listing {path : PathModule} (this : TreeDataProvider)
        (d : string) (w w' : World) (items : list FileItem.t) :
  inTestOrStoryDirectory this d = false ->
  getCombinedComponentsWithTestFiles this d w = (Normal items, w') ->
  getAllFilesInDirectory this d w = (Normal (filter unmarked items), w).
Proof.
  intros D R.
  destruct (getCombinedComponentsWithTestFiles_inv this _ _ _ _ R) as (names & Hl & -> & _).
  unfold getCombinedComponentsWithTestFiles in R. apply bind_inv in R.
  destruct R as (allFiles & w1 & A & _).
  destruct (getAllFilesInDirectory_inv this _ _ _ _ A) as (names' & Hl' & -> & ->).
  assert (names' = names) by congruence. subst names'. rewrite A. f_equal. f_equal.
  rewrite D. clear - D. induction names as [|n names IH]; [reflexivity|].
  cbn [map flat_map]. rewrite filter_app. unfold group at 1. rewrite D.
  cbn [filter]. change (unmarked (row (files w) d false n)) with true. cbn iota.
  destruct (isTestOrStoryFile n); cbn [filter app].
  - now rewrite IH.
  - now rewrite matched_rows_marked, IH.
Qed.

Lemma merge_keeps_the_listing_witness :
  inTestOrStoryDirectory (path := posix) web_src "/app/web/src/ui" = false
  /\ getAllFilesInDirectory (path := posix) web_src "/app/web/src/ui"
                            (world_of two_components)
     = (Normal (filter unmarked
                       (flat_map (group (path := posix) web_src (disk_of two_components)
                                        "/app/web/src/ui" ["A.test.tsx"]
                                        ["B.stories.tsx"; "A.stories.tsx"])
                                 ["A.tsx"; "B.tsx"])),
        world_of two_components).
Proof.
  split; [reflexivity|].
  apply (merge_keeps_the_listing (path := posix) web_src "/app/web/src/ui"
           (world_of two_components) (world_of two_components));
    [reflexivity | vm_compute; reflexivity].
Defined.

(** X12. In what the merge of a directory that is not one of the two
    auxiliary directories returns, marking tells the matches from the
    entries.  Every entry of the directory has its row in the result,
    unmarked whatever its name; every unmarked row is such an entry; and
    every marked row is the row of an entry listed in the tests or in the
    stories directory, file or directory, with its path there and a test
    or story name for label. *)
Theorem merge_marks_the_matches_only {path : PathModule} (this : TreeDataProvider)
        (d : string) (w w' : World) (items : list FileItem.t) :
  inTestOrStoryDirectory this d = false ->
  getCombinedComponentsWithTestFiles this d w = (Normal items, w') ->
  (forall n, In n (entries (files w) d) ->
             exists f, In f items
                       /\ FileItem.label f = n
                       /\ FileItem.resourceUri f = join d n
                       /\ is_auxiliary f = false)
  /\ (forall f, In f items -> is_auxiliary f = false ->
                In (FileItem.label f) (entries (files w) d)
                /\ FileItem.resourceUri f = join d (FileItem.label f))
  /\ (forall f, In f items -> is_auxiliary f = true ->
                isTestOrStoryFile (FileItem.label f) = true
                /\ (FileItem.resourceUri f
                    = join (join (workspaceRoot this) "tests") (FileItem.label f)
                    /\ In (FileItem.label f)
                          (entries (files w) (join (workspaceRoot this) "tests"))
                    \/ FileItem.resourceUri f
                       = join (join (workspaceRoot this) "stories") (FileItem.label f)
                       /\ In (FileItem.label f)
                             (entries (files w) (join (workspaceRoot this) "stories")))).
Proof.
  intros D R.
  destruct (getCombinedComponentsWithTestFiles_inv this _ _ _ _ R) as (names & Hl & -> & _).
  rewrite (entries_listing _ _ _ Hl).
  split; [|split].
  - intros n Hn. exists (row (files w) d false n).
    split; [|repeat split].
    apply in_flat_map. exists n. split; [exact Hn|].
    unfold group. rewrite D. left. reflexivity.
  - intros f Hf Hm. apply in_flat_map in Hf. destruct Hf as (n & Hn & Hf).
    unfold group in Hf. rewrite D in Hf. destruct Hf as [<- | Hf].
    + split; [exact Hn | reflexivity].
    + destruct (isTestOrStoryFile n); [contradiction|].
      apply matched_rows_from in Hf.
      destruct Hf as (x & _ & [[_ ->] | [_ ->]]); discriminate Hm.
  - intros f Hf Hm. apply in_flat_map in Hf. destruct Hf as (n & _ & Hf).
    unfold group in Hf. rewrite D in Hf. destruct Hf as [<- | Hf]; [discriminate Hm|].
    destruct (isTestOrStoryFile n); [contradiction|].
    apply matched_rows_from in Hf. destruct Hf as (x & Hx & [[Hi ->] | [Hi ->]]).
    + split; [exact (isTestFile_test_name _ _ Hx) | left; split; [reflexivity | exact Hi]].
    + split; [exact (isTestFile_test_name _ _ Hx) | right; split; [reflexivity | exact Hi]].
Qed.

Lemma merge_marks_the_matches_only_witness :
  inTestOrStoryDirectory (path := posix) web_src "/app/web/src/ui/tests" = false
  /\ In "Card.test.tsx" (entries (files (world_of nested_tests)) "/app/web/src/ui/tests")
  /\ exists f,
      In f (flat_map (group (path := posix) web_src (disk_of nested_tests)
                            "/app/web/src/ui/tests" ["Card.test.tsx"] [])
                     ["Card.tsx"; "Card.test.tsx"])
      /\ FileItem.label f = "Card.test.tsx"
      /\ FileItem.resourceUri f = "/app/web/src/ui/tests/Card.test.tsx"
      /\ is_auxiliary f = false.
Proof.
  split; [reflexivity|]. split; [right; left; reflexivity|].
  apply (proj1 (merge_marks_the_matches_only (path := posix) web_src
                  "/app/web/src/ui/tests" (world_of nested_tests) (world_of nested_tests)
                  (flat_map (group (path := posix) web_src (disk_of nested_tests)
                                   "/app/web/src/ui/tests" ["Card.test.tsx"] [])
                            ["Card.tsx"; "Card.test.tsx"])
                  eq_refl ltac:(vm_compute; reflexivity))
               "Card.test.tsx").
  right. left. reflexivity.
Defined.

(** X13. With the workspace root set, a query on a path whose existence
    check throws (the root or an expanded directory that is missing or may
    not be reached) returns the empty sequence and throws nothing, without
    reading the tests or the stories directory. *)
Theorem missing_directory_expands_to_nothing {path : PathModule} (this : TreeDataProvider)
        (element : option FileItem.t) (w : World) (err : Errno) :
  workspaceRoot this <> EmptyString ->
  on_access (files w) (queried_path this element) = Some err ->
  getChildren this element w = (Normal [], w).
Proof.
  intros Hroot Ha.
  assert (A : getAllFilesInDirectory this (queried_path this element) w = (Normal [], w)).
  { unfold getAllFilesInDirectory.
    rewrite (bind_eq _ _ _ _ _ (getAllFileNamesInDirectory_run _ w)).
    unfold listing. now rewrite Ha. }
  unfold getChildren. rewrite (root_set_eqb this Hroot).
  destruct element as [element|]; [|exact A]. cbn [queried_path] in A.
  destruct (negb _); [|exact A].
  unfold getCombinedComponentsWithTestFiles. now rewrite (bind_eq _ _ _ _ _ A).
Qed.

Lemma missing_directory_expands_to_nothing_witness :
  workspaceRoot web_src <> EmptyString
  /\ on_access (files (world_of tests_is_a_file))
               (queried_path web_src (Some (directory_row "hooks" "/app/web/src/ui/hooks")))
     = Some ENOENT
  /\ getChildren (path := posix) web_src
                 (Some (directory_row "hooks" "/app/web/src/ui/hooks"))
                 (world_of tests_is_a_file)
     = (Normal [], world_of tests_is_a_file).
Proof.
  split; [discriminate|]. split; [reflexivity|].
  apply (missing_directory_expands_to_nothing (path := posix) web_src
           (Some (directory_row "hooks" "/app/web/src/ui/hooks"))
           (world_of tests_is_a_file) ENOENT);
    [discriminate | reflexivity].
Defined.

(** X14. On a disk where [lstatSync] answers and the directory can be
    listed, [findMatchingFiles] returns one row for each listed name that
    matches the component, in listing order and nothing else; each row is
    marked, lies in the directory searched, and carries a test or story
    name with the stem of the component. *)
Theorem findMatchingFiles_returns_the_matches {path : PathModule} (d componentLabel : string)
        (w : World) (names : list string) :
  lstat_answers (files w) ->
  listing (files w) d = Normal names ->
  exists items,
    findMatchingFiles d componentLabel w = (Normal items, w)
    /\ map FileItem.label items = filter (isTestFile componentLabel) names
    /\ Forall (fun f => is_auxiliary f = true
                        /\ FileItem.resourceUri f = join d (FileItem.label f)
                        /\ isTestOrStoryFile (FileItem.label f) = true
                        /\ stem (FileItem.label f) = stem componentLabel)
              items.
Proof.
  intros L Hl.
  exists (map (row (files w) d true) (filter (isTestFile componentLabel) names)).
  split; [apply findMatchingFiles_total; assumption|].
  split; [apply labels_of_rows|].
  apply Forall_forall. intros f Hf. apply in_map_iff in Hf.
  destruct Hf as (x & <- & Hx). apply filter_In in Hx. destruct Hx as [_ Hx].
  cbn. repeat split;
    [exact (isTestFile_test_name _ _ Hx) | exact (isTestFile_same_stem _ _ Hx)].
Qed.

Lemma findMatchingFiles_returns_the_matches_witness :
  lstat_answers (files (world_of two_components))
  /\ listing (files (world_of two_components)) "/app/web/src/stories"
     = Normal ["B.stories.tsx"; "A.stories.tsx"]
  /\ exists items,
      findMatchingFiles (path := posix) "/app/web/src/stories" "A.tsx"
                        (world_of two_components)
      = (Normal items, world_of two_components)
      /\ map FileItem.label items = ["A.stories.tsx"].
Proof.
  split; [apply disk_of_lstat_answers|]. split; [reflexivity|].
  destruct (findMatchingFiles_returns_the_matches (path := posix) "/app/web/src/stories"
              "A.tsx" (world_of two_components) ["B.stories.tsx"; "A.stories.tsx"]
              (disk_of_lstat_answers two_components) eq_refl) as (items & R & Hl & _).
  exists items. split; [exact R | exact Hl].
Defined.

(** ** Activation, expansion from the top level, refresh *)

Lemma append_not_empty (a : string) (c : ascii) (b : string) :
  a ++ String c b <> EmptyString.
Proof. destruct a; discriminate. Qed.

(** X15. The provider [activate] registers for the view is rooted at the
    [web/src] of the first workspace folder, the others being ignored; its
    root is then set, so its queries only read.  With no folder, or an
    empty list of folders, its root is unset: every query returns the
    empty sequence and shows the notice. *)
Theorem activate_roots_the_provider {path : PathModule}
        (workspaceFolders : option (list Extension.WorkspaceFolder))
        (provider : TreeDataProvider) :
  In ("fileStructure", provider)
     (Extension.treeDataProviders (Extension.activate workspaceFolders)) ->
  match workspaceFolders with
  | Some (folder :: _) =>
      workspaceRoot provider = Extension.fsPath folder ++ "/web/src"
      /\ forall element w, world_after (getChildren provider element) w = w
  | _ =>
      forall element w,
        result_of (getChildren provider element) w = Normal []
        /\ notices (world_after (getChildren provider element) w)
           = (notices w ++ ["No FileItem in empty workspace"])%list
  end.
Proof.
  intros [E | []]. injection E as <-.
  destruct workspaceFolders as [[|folder rest]|]; cbn.
  - intros element w. split; reflexivity.
  - split; [reflexivity|]. intros element w.
    assert (Hroot : workspaceRoot {| workspaceRoot := Extension.fsPath folder ++ "/web/src" |}
                    <> EmptyString) by apply append_not_empty.
    unfold getChildren. rewrite (root_set_eqb _ Hroot).
    destruct element as [element|].
    + destruct (negb _).
      * apply reader_getCombinedComponentsWithTestFiles.
      * apply reader_getAllFilesInDirectory.
    + apply reader_getAllFilesInDirectory.
  - intros element w. split; reflexivity.
Qed.

Lemma activate_roots_the_provider_witness :
  In ("fileStructure", web_src)
     (Extension.treeDataProviders
        (Extension.activate (Some [ {| Extension.fsPath := "/app" |};
                                    {| Extension.fsPath := "/lib" |} ])))
  /\ workspaceRoot web_src = "/app" ++ "/web/src".
Proof.
  split; [left; reflexivity|].
  exact (proj1 (activate_roots_the_provider (path := posix)
                  (Some [ {| Extension.fsPath := "/app" |};
                          {| Extension.fsPath := "/lib" |} ])
                  web_src (or_introl eq_refl))).
Defined.

(** X16. The rows of the top level expand as their place on the disk
    asks.  With the workspace root set, a row the root query returned
    under the label [tests] or [stories] has the path of that auxiliary
    directory, so expanding it gives its plain listing; and where, among
    the names the root lists, [path.join] gives those two paths to
    [tests] and [stories] only, every other row of the top level is
    expanded by the merge. *)
Theorem top_level_rows_expand {path : PathModule} (this : TreeDataProvider) (w : World)
        (items : list FileItem.t) (r : FileItem.t) :
  workspaceRoot this <> EmptyString ->
  result_of (getChildren this Datatypes.None) w = Normal items ->
  In r items ->
  (FileItem.label r = "tests" \/ FileItem.label r = "stories" ->
   inTestOrStoryDirectory this (FileItem.resourceUri r) = true
   /\ getChildren this (Some r) w
      = getAllFilesInDirectory this (FileItem.resourceUri r) w)
  /\ ((forall n, In n (entries (files w) (workspaceRoot this)) ->
                 join (workspaceRoot this) n = join (workspaceRoot this) "tests" ->
                 n = "tests") ->
      (forall n, In n (entries (files w) (workspaceRoot this)) ->
                 join (workspaceRoot this) n = join (workspaceRoot this) "stories" ->
                 n = "stories") ->
      FileItem.label r <> "tests" ->
      FileItem.label r <> "stories" ->
      inTestOrStoryDirectory this (FileItem.resourceUri r) = false
      /\ getChildren this (Some r) w
         = getCombinedComponentsWithTestFiles this (FileItem.resourceUri r) w).
Proof.
  intros Hroot R Hr. unfold result_of, getChildren in R.
  rewrite (root_set_eqb this Hroot) in R.
  destruct (getAllFilesInDirectory this (workspaceRoot this) w) as [c w'] eqn:A.
  simpl in R. subst c.
  destruct (getAllFilesInDirectory_inv this _ _ _ _ A) as (names & Hl & -> & _).
  rewrite (entries_listing _ _ _ Hl).
  apply in_map_iff in Hr. destruct Hr as (n & <- & Hn).
  cbn [FileItem.label FileItem.resourceUri row FileItem.new].
  unfold getChildren. rewrite (root_set_eqb this Hroot).
  cbn [FileItem.resourceUri row FileItem.new]. split.
  - intros Hlab.
    assert (D : inTestOrStoryDirectory this (join (workspaceRoot this) n) = true).
    { unfold inTestOrStoryDirectory. apply orb_true_iff.
      destruct Hlab as [-> | ->]; [left | right]; apply String.eqb_refl. }
    rewrite D. split; reflexivity.
  - intros It Is Nt Ns.
    assert (D : inTestOrStoryDirectory this (join (workspaceRoot this) n) = false).
    { unfold inTestOrStoryDirectory. apply orb_false_iff.
      split; apply String.eqb_neq; intros E;
        [apply Nt, (It n Hn) | apply Ns, (Is n Hn)]; exact E. }
    rewrite D. split; reflexivity.
Qed.

Lemma top_level_rows_expand_witness :
  workspaceRoot web_src <> EmptyString
  /\ result_of (getChildren (path := posix) web_src Datatypes.None) (world_of two_components)
     = Normal [ui_row; directory_row "tests" "/app/web/src/tests";
               directory_row "stories" "/app/web/src/stories"]
  /\ getChildren (path := posix) web_src (Some (directory_row "tests" "/app/web/src/tests"))
                 (world_of two_components)
     = getAllFilesInDirectory (path := posix) web_src "/app/web/src/tests"
                              (world_of two_components)
  /\ (forall n, In n (entries (files (world_of two_components)) (workspaceRoot web_src)) ->
                join (PathModule := posix) (workspaceRoot web_src) n
                = join (PathModule := posix) (workspaceRoot web_src) "tests" ->
                n = "tests")
  /\ (forall n, In n (entries (files (world_of two_components)) (workspaceRoot web_src)) ->
                join (PathModule := posix) (workspaceRoot web_src) n
                = join (PathModule := posix) (workspaceRoot web_src) "stories" ->
                n = "stories")
  /\ getChildren (path := posix) web_src (Some ui_row) (world_of two_components)
     = getCombinedComponentsWithTestFiles (path := posix) web_src "/app/web/src/ui"
                                          (world_of two_components).
Proof.
  assert (R : result_of (getChildren (path := posix) web_src Datatypes.None)
                        (world_of two_components)
              = Normal [ui_row; directory_row "tests" "/app/web/src/tests";
                        directory_row "stories" "/app/web/src/stories"]).
  { vm_compute. reflexivity. }
  assert (It : forall n,
             In n (entries (files (world_of two_components)) (workspaceRoot web_src)) ->
             join (PathModule := posix) (workspaceRoot web_src) n
             = join (PathModule := posix) (workspaceRoot web_src) "tests" ->
             n = "tests").
  { intros n [<- | [<- | [<- | []]]] E; [discriminate E | reflexivity | discriminate E]. }
  assert (Is : forall n,
             In n (entries (files (world_of two_components)) (workspaceRoot web_src)) ->
             join (PathModule := posix) (workspaceRoot web_src) n
             = join (PathModule := posix) (workspaceRoot web_src) "stories" ->
             n = "stories").
  { intros n [<- | [<- | [<- | []]]] E; [discriminate E | discriminate E | reflexivity]. }
  split; [discriminate|]. split; [exact R|]. split; [|split; [exact It | split; [exact Is|]]].
  - refine (proj2 (proj1 (top_level_rows_expand (path := posix) web_src
                            (world_of two_components) _
                            (directory_row "tests" "/app/web/src/tests") _ R _) _)).
    + discriminate.
    + right. left. reflexivity.
    + left. reflexivity.
  - refine (proj2 (proj2 (top_level_rows_expand (path := posix) web_src
                            (world_of two_components) _ ui_row _ R _) It Is _ _)).
    + discriminate.
    + left. reflexivity.
    + discriminate.
    + discriminate.
Defined.

(** X17. [refresh] fires one change event and does nothing else: it
    returns, shows no notice and leaves the disk alone, and a query asked
    after it completes as the same query asked before it. *)
Theorem refresh_changes_no_answer {path : PathModule} (this : TreeDataProvider)
        (element : option FileItem.t) (w : World) :
  result_of refresh w = Normal tt
  /\ treeDataChanges (world_after refresh w) = S (treeDataChanges w)
  /\ notices (world_after refresh w) = notices w
  /\ files (world_after refresh w) = files w
  /\ result_of (getChildren this element) (world_after refresh w)
     = result_of (getChildren this element) w.
Proof.
  repeat split. apply getChildren_disk_only. reflexivity.
Qed.
